(** * OpenFIREshared.h: shared board assets of the OpenFIRE platform

    A shallow embedding of the tables and enumerations of [class OF_Const]
    (src/OpenFIREshared.h), and the properties of them that the specification
    states.  The header holds data only: enumerations, three
    [std::unordered_map]s, one [std::unordered_multimap] and one array of
    labels.  Enumerations are embedded as their declaration (names and
    explicit initialisers) together with the C++ rule that numbers them, so
    that every constant used in a table is computed from the declaration the
    way the compiler does it. *)

From Stdlib Require Import ZArith List Lia Bool.
From stdpp Require Import base option list strings gmap fin_maps.
Import ListNotations.

Local Open Scope string_scope.
Local Open Scope Z_scope.

(** ** Enumerations *)

(** The body of a C++ [enum { ... }]: the enumerators in declaration order,
    each with its explicit initialiser when the source writes one. *)
Definition enum_decl : Type := list (string * option Z).

(** [name = v,] *)
Definition val (name : string) (v : Z) : string * option Z := (name, Some v).
(** [name,] *)
Definition nxt (name : string) : string * option Z := (name, None).

(** The numbering rule of the language: an enumerator with an initialiser
    takes it, one without takes the value of the previous enumerator plus
    one, and the first takes zero. *)
Fixpoint enum_values_from (next : Z) (d : enum_decl) : list (string * Z) :=
  match d with
  | [] => []
  | (name, init) :: rest =>
      let v := match init with Some i => i | None => next end in
      (name, v) :: enum_values_from (v + 1) rest
  end.

Definition enum_values (d : enum_decl) : list (string * Z) :=
  enum_values_from 0 d.

(** The value an enumerator name denotes (the first declaration of it). *)
Definition enum_value (d : enum_decl) (name : string) : option Z :=
  snd <$> List.find (fun p => String.eqb (fst p) name) (enum_values d).

(** The enumerators declared before [marker], in order. *)
Fixpoint enum_before (marker : string) (e : list (string * Z)) : list (string * Z) :=
  match e with
  | [] => []
  | (n, v) :: rest =>
      if String.eqb n marker then [] else (n, v) :: enum_before marker rest
  end.

(** A named constant of an enumeration; elaboration stops if the
    declaration has no enumerator of that name. *)
Ltac enum_const d name :=
  let v := eval vm_compute in (enum_value d name) in
  lazymatch v with
  | Some ?z => exact z
  end.

(** [boardInputs_e] (lines 57-94). *)
Definition boardInputs_e : enum_decl :=
  [ val "unavailable" (-2);
    val "btnUnmapped" (-1);
    val "btnTrigger" 0;
    nxt "btnGunA";
    nxt "btnGunB";
    nxt "btnGunC";
    nxt "btnStart";
    nxt "btnSelect";
    nxt "btnGunUp";
    nxt "btnGunDown";
    nxt "btnGunLeft";
    nxt "btnGunRight";
    nxt "btnPedal";
    nxt "btnPedal2";
    nxt "btnPump";
    nxt "btnHome";
    nxt "rumblePin";
    nxt "solenoidPin";
    nxt "rumbleSwitch";
    nxt "solenoidSwitch";
    nxt "autofireSwitch";
    nxt "neoPixel";
    nxt "ledR";
    nxt "ledG";
    nxt "ledB";
    nxt "camSDA";
    nxt "camSCL";
    nxt "periphSDA";
    nxt "periphSCL";
    nxt "battery";
    nxt "analogX";
    nxt "analogY";
    nxt "tempPin";
    nxt "wiiClockGen";
    nxt "boardInputsCount" ].

(** [boolTypes_e] (lines 97-110). *)
Definition boolTypes_e : enum_decl :=
  [ val "customPins" 0;
    nxt "rumble";
    nxt "solenoid";
    nxt "autofire";
    nxt "simplePause";
    nxt "holdToPause";
    nxt "commonAnode";
    nxt "lowButtonsMode";
    nxt "rumbleFF";
    nxt "invertStaticPixels";
    nxt "boolTypesCount" ].

(** [settingsTypes_e] (lines 113-129). *)
Definition settingsTypes_e : enum_decl :=
  [ val "rumbleStrength" 0;
    nxt "rumbleInterval";
    nxt "solenoidOnLength";
    nxt "solenoidOffLength";
    nxt "solenoidHoldLength";
    nxt "holdToPauseLength";
    nxt "customLEDcount";
    nxt "customLEDstatic";
    nxt "customLEDcolor1";
    nxt "customLEDcolor2";
    nxt "customLEDcolor3";
    nxt "tempWarning";
    nxt "tempShutdown";
    nxt "settingsTypesCount" ].

(** [profSyncTypes_e] (lines 215-230).  [profDataTypes] is the count
    marker; [profName] is declared after it with an explicit value. *)
Definition profSyncTypes_e : enum_decl :=
  [ val "profTopOffset" 0;
    nxt "profBottomOffset";
    nxt "profLeftOffset";
    nxt "profRightOffset";
    nxt "profTLled";
    nxt "profTRled";
    nxt "profAdjX";
    nxt "profAdjY";
    nxt "profIrSens";
    nxt "profRunMode";
    nxt "profIrLayout";
    nxt "profColor";
    nxt "profDataTypes";
    val "profName" 0xFA ].

(** The enumerators of [boardInputs_e] that the tables below use. *)
Definition unavailable : Z := ltac:(enum_const boardInputs_e "unavailable").
Definition btnUnmapped : Z := ltac:(enum_const boardInputs_e "btnUnmapped").
Definition btnTrigger : Z := ltac:(enum_const boardInputs_e "btnTrigger").
Definition btnGunA : Z := ltac:(enum_const boardInputs_e "btnGunA").
Definition btnGunB : Z := ltac:(enum_const boardInputs_e "btnGunB").
Definition btnGunC : Z := ltac:(enum_const boardInputs_e "btnGunC").
Definition btnStart : Z := ltac:(enum_const boardInputs_e "btnStart").
Definition btnSelect : Z := ltac:(enum_const boardInputs_e "btnSelect").
Definition btnGunUp : Z := ltac:(enum_const boardInputs_e "btnGunUp").
Definition btnGunDown : Z := ltac:(enum_const boardInputs_e "btnGunDown").
Definition btnGunLeft : Z := ltac:(enum_const boardInputs_e "btnGunLeft").
Definition btnGunRight : Z := ltac:(enum_const boardInputs_e "btnGunRight").
Definition btnPedal : Z := ltac:(enum_const boardInputs_e "btnPedal").
Definition btnPedal2 : Z := ltac:(enum_const boardInputs_e "btnPedal2").
Definition btnPump : Z := ltac:(enum_const boardInputs_e "btnPump").
Definition btnHome : Z := ltac:(enum_const boardInputs_e "btnHome").
Definition rumblePin : Z := ltac:(enum_const boardInputs_e "rumblePin").
Definition solenoidPin : Z := ltac:(enum_const boardInputs_e "solenoidPin").
Definition rumbleSwitch : Z := ltac:(enum_const boardInputs_e "rumbleSwitch").
Definition solenoidSwitch : Z := ltac:(enum_const boardInputs_e "solenoidSwitch").
Definition autofireSwitch : Z := ltac:(enum_const boardInputs_e "autofireSwitch").
Definition neoPixel : Z := ltac:(enum_const boardInputs_e "neoPixel").
Definition ledR : Z := ltac:(enum_const boardInputs_e "ledR").
Definition ledG : Z := ltac:(enum_const boardInputs_e "ledG").
Definition ledB : Z := ltac:(enum_const boardInputs_e "ledB").
Definition camSDA : Z := ltac:(enum_const boardInputs_e "camSDA").
Definition camSCL : Z := ltac:(enum_const boardInputs_e "camSCL").
Definition periphSDA : Z := ltac:(enum_const boardInputs_e "periphSDA").
Definition periphSCL : Z := ltac:(enum_const boardInputs_e "periphSCL").
Definition battery : Z := ltac:(enum_const boardInputs_e "battery").
Definition analogX : Z := ltac:(enum_const boardInputs_e "analogX").
Definition analogY : Z := ltac:(enum_const boardInputs_e "analogY").
Definition tempPin : Z := ltac:(enum_const boardInputs_e "tempPin").
Definition wiiClockGen : Z := ltac:(enum_const boardInputs_e "wiiClockGen").
Definition boardInputsCount : Z := ltac:(enum_const boardInputs_e "boardInputsCount").

(** ** The board preset registry *)

(** A [std::unordered_map] built from a braced initialiser list: the pairs
    are inserted in order and a key that is already present is not
    overwritten, so the first pair of a key is the one that stays.  stdpp's
    [list_to_map] keeps the first pair of a key as well. *)
Definition unordered_map_of {V : Type} (init : list (string * V)) : gmap string V :=
  list_to_map init.

(** The initialiser of [boardsPresetsMap] (lines 239-291): per board, the
    function of each RP2040 GPIO, index 0 first. *)
Definition boardsPresetsMap_init : list (string * list Z) :=
  [ ("rpipico",
      [ btnGunA;       btnGunB;        btnGunC;        btnStart;       btnSelect;
        btnHome;       btnGunUp;       btnGunDown;     btnGunLeft;     btnGunRight;
        ledR;          ledG;           ledB;           btnPump;        btnPedal;
        btnTrigger;    solenoidPin;    rumblePin;      periphSDA;      periphSCL;
        camSDA;        camSCL;         btnUnmapped;    unavailable;    unavailable;
        unavailable;   btnUnmapped;    btnUnmapped;    tempPin;        unavailable ]);
    ("rpipicow",
      [ btnGunA;       btnGunB;        btnGunC;        btnStart;       btnSelect;
        btnHome;       btnGunUp;       btnGunDown;     btnGunLeft;     btnGunRight;
        ledR;          ledG;           ledB;           btnPump;        btnPedal;
        btnTrigger;    solenoidPin;    rumblePin;      periphSDA;      periphSCL;
        camSDA;        camSCL;         btnUnmapped;    unavailable;    unavailable;
        unavailable;   btnUnmapped;    btnUnmapped;    tempPin;        unavailable ]);
    ("adafruitItsyRP2040",
      [ btnUnmapped;   btnUnmapped;    camSDA;         camSCL;         btnPedal;
        btnUnmapped;   btnTrigger;     btnGunDown;     btnGunLeft;     btnGunUp;
        btnGunRight;   btnGunC;        btnUnmapped;    unavailable;    unavailable;
        unavailable;   unavailable;    unavailable;    btnUnmapped;    btnUnmapped;
        btnUnmapped;   unavailable;    unavailable;    unavailable;    rumblePin;
        solenoidPin;   btnGunB;        btnGunA;        btnStart;       btnSelect ]);
    ("adafruitKB2040",
      [ btnUnmapped;   btnUnmapped;    camSDA;         camSCL;         btnGunB;
        rumblePin;     btnGunC;        solenoidPin;    btnSelect;      btnStart;
        btnGunRight;   unavailable;    unavailable;    unavailable;    unavailable;
        unavailable;   unavailable;    unavailable;    btnGunUp;       btnGunLeft;
        btnGunDown;    unavailable;    unavailable;    unavailable;    unavailable;
        unavailable;   tempPin;        btnHome;        btnTrigger;     btnGunA ]);
    ("arduinoNanoRP2040",
      [ btnTrigger;    btnPedal;       unavailable;    unavailable;    btnGunA;
        btnGunC;       btnUnmapped;    btnGunB;        unavailable;    unavailable;
        unavailable;   unavailable;    camSDA;         camSCL;         unavailable;
        btnUnmapped;   btnUnmapped;    btnUnmapped;    btnUnmapped;    btnUnmapped;
        btnUnmapped;   btnUnmapped;    unavailable;    unavailable;    unavailable;
        btnUnmapped;   btnUnmapped;    btnUnmapped;    tempPin;        btnUnmapped ]);
    ("waveshareZero",
      [ btnTrigger;    btnGunA;        btnGunB;        btnGunC;        btnStart;
        btnSelect;     btnUnmapped;    btnUnmapped;    btnUnmapped;    btnUnmapped;
        btnUnmapped;   btnUnmapped;    btnUnmapped;    btnUnmapped;    camSDA;
        camSCL;        unavailable;    btnUnmapped;    btnUnmapped;    btnUnmapped;
        btnUnmapped;   btnUnmapped;    btnUnmapped;    btnUnmapped;    btnUnmapped;
        btnUnmapped;   btnUnmapped;    btnUnmapped;    btnUnmapped;    tempPin ]) ].

Definition boardsPresetsMap : gmap string (list Z) :=
  unordered_map_of boardsPresetsMap_init.


(** [find] on a map built this way is the first pair of the key in the
    initialiser list. *)
Definition init_find {V : Type} (init : list (string * V)) (key : string) : option V :=
  snd <$> List.find (fun p => String.eqb (fst p) key) init.

(** The keys of an initialiser list. *)
Definition init_keys {V : Type} (init : list (string * V)) : list string :=
  map fst init.

(** ** App-side assets ([#ifdef OF_APP]) *)

(** [valuesNameList] (lines 297-331): the labels of the pin boxes. *)
Definition valuesNameList : list string :=
  [ "Unmapped";
    "Trigger";
    "Button A";
    "Button B";
    "Button C";
    "Start";
    "Select";
    "D-Pad Up";
    "D-Pad Down";
    "D-Pad Left";
    "D-Pad Right";
    "Pedal";
    "Alt Pedal";
    "Pump Action";
    "Home Button";
    "Rumble Signal";
    "Solenoid Signal";
    "Rumble Switch";
    "Solenoid Switch";
    "Autofire Switch";
    "External NeoPixel";
    "RGB LED Red";
    "RGB LED Green";
    "RGB LED Blue";
    "Camera SDA";
    "Camera SCL";
    "Peripherals SDA";
    "Peripherals SCL";
    "Battery Sensor (Unused)";
    "Analog Stick X";
    "Analog Stick Y";
    "Temp Sensor";
    "Wii Cam Clock" ].

(** Reading [valuesNameList[i]]: an index outside the array has no label
    (in C++ the read is out of bounds). *)
Definition valuesNameList_at (i : Z) : option string :=
  if i <? 0 then None else valuesNameList !! Z.to_nat i.

(** The label of a pin function: the table has no label for
    [unavailable], so the function [f] is shown with entry [f + 1]. *)
Definition pinLabel (f : Z) : option string := valuesNameList_at (f + 1).

(** [boardNames] (lines 333-342). *)
Definition boardNames_init : list (string * string) :=
  [ ("rpipico",             "Raspberry Pi Pico (RP2040)");
    ("rpipicow",            "Raspberry Pi Pico W (RP2040)");
    ("adafruitItsyRP2040",  "Adafruit ItsyBitsy RP2040");
    ("adafruitKB2040",      "Adafruit Keeboar KB2040");
    ("arduinoNanoRP2040",   "Arduino Nano Connect RP2040");
    ("waveshareZero",       "Waveshare Zero RP2040");
    ("generic",             "Unknown Board") ].

Definition boardNames : gmap string string := unordered_map_of boardNames_init.

(** [boardBoxPositions_e] (lines 344-349). *)
Definition boardBoxPositions_e : enum_decl :=
  [ val "posNothing" 0;
    val "posLeft" 512;
    val "posRight" 1024;
    val "posMiddle" 2048 ].

Definition posNothing : Z := ltac:(enum_const boardBoxPositions_e "posNothing").
Definition posLeft : Z := ltac:(enum_const boardBoxPositions_e "posLeft").
Definition posRight : Z := ltac:(enum_const boardBoxPositions_e "posRight").
Definition posMiddle : Z := ltac:(enum_const boardBoxPositions_e "posMiddle").

(** The conversion of an [int] expression to the [unsigned int] element
    type of the layout vectors (32 bits, wrapping). *)
Definition to_unsigned (z : Z) : Z := z mod 2 ^ 32.

(** The initialiser of [boardsBoxPositions] (lines 358-430), as the [int]
    expressions the source writes: slot number plus grid. *)
Definition boardsBoxPositions_init : list (string * list Z) :=
  [ ("rpipico",
      [ 1+posLeft;     2+posLeft;      4+posLeft;      5+posLeft;      6+posLeft;
        7+posLeft;     9+posLeft;      10+posLeft;     11+posLeft;     12+posLeft;
        14+posLeft;    15+posLeft;     16+posLeft;     17+posLeft;     19+posLeft;
        20+posLeft;    20+posRight;    19+posRight;    17+posRight;    16+posRight;
        15+posRight;   14+posRight;    12+posRight;    posNothing;     posNothing;
        posNothing;    10+posRight;    9+posRight;     7+posRight;     posNothing ]);
    ("rpipicow",
      [ 1+posLeft;     2+posLeft;      4+posLeft;      5+posLeft;      6+posLeft;
        7+posLeft;     9+posLeft;      10+posLeft;     11+posLeft;     12+posLeft;
        14+posLeft;    15+posLeft;     16+posLeft;     17+posLeft;     19+posLeft;
        20+posLeft;    20+posRight;    19+posRight;    17+posRight;    16+posRight;
        15+posRight;   14+posRight;    12+posRight;    posNothing;     posNothing;
        posNothing;    10+posRight;    9+posRight;     7+posRight;     posNothing ]);
    ("adafruitItsyRP2040",
      [ 13+posRight;   14+posRight;    12+posRight;    11+posRight;    2+posMiddle;
        1+posMiddle;   9+posRight;     8+posRight;     7+posRight;     6+posRight;
        5+posRight;    4+posRight;     14+posLeft;     posNothing;     posNothing;
        posNothing;    posNothing;     posNothing;     11+posLeft;     12+posLeft;
        13+posLeft;    posNothing;     posNothing;     posNothing;     9+posLeft;
        10+posLeft;    5+posLeft;      6+posLeft;      7+posLeft;      8+posLeft ]);
    ("adafruitKB2040",
      [ 3+posLeft;     4+posLeft;      7+posLeft;      8+posLeft;      9+posLeft;
        10+posLeft;    11+posLeft;     12+posLeft;     13+posLeft;     14+posLeft;
        14+posRight;   posNothing;     posNothing;     posNothing;     posNothing;
        posNothing;    posNothing;     posNothing;     11+posRight;    13+posRight;
        12+posRight;   posNothing;     posNothing;     posNothing;     posNothing;
        posNothing;    10+posRight;    9+posRight;     8+posRight;     7+posRight ]);
    ("arduinoNanoRP2040",
      [ 18+posRight;   17+posRight;    posNothing;     posNothing;     4+posRight;
        6+posRight;    4+posLeft;      5+posRight;     posNothing;     posNothing;
        posNothing;    posNothing;     11+posLeft;     12+posLeft;     posNothing;
        13+posRight;   12+posRight;    11+posRight;    10+posRight;    9+posRight;
        8+posRight;    7+posRight;     posNothing;     posNothing;     posNothing;
        14+posRight;   7+posLeft;      8+posLeft;      9+posLeft;      10+posLeft ]);
    ("waveshareZero",
      [ 2+posRight;    3+posRight;     4+posRight;     5+posRight;     6+posRight;
        7+posRight;    8+posRight;     9+posRight;     10+posRight;    11+posRight;
        3+posMiddle;   2+posMiddle;    11+posLeft;     10+posLeft;     9+posLeft;
        8+posLeft;     posNothing;     posNothing;     posNothing;     posNothing;
        posNothing;    posNothing;     posNothing;     posNothing;     posNothing;
        posNothing;    7+posLeft;      6+posLeft;      5+posLeft;      4+posLeft ]);
    ("generic",
      [ 1+posLeft;     2+posLeft;      3+posLeft;      4+posLeft;      5+posLeft;
        6+posLeft;     7+posLeft;      8+posLeft;      9+posLeft;      10+posLeft;
        11+posLeft;    12+posLeft;     13+posLeft;     14+posLeft;     15+posLeft;
        16+posLeft;    16+posRight;    15+posRight;    14+posRight;    13+posRight;
        12+posRight;   11+posRight;    10+posRight;    9+posRight;     8+posRight;
        7+posRight;    6+posRight;     5+posRight;     4+posRight;     3+posRight ]) ].

(** The stored vectors hold [unsigned int]. *)
Definition boardsBoxPositions_stored : list (string * list Z) :=
  map (fun kv => (fst kv, map to_unsigned (snd kv))) boardsBoxPositions_init.

Definition boardsBoxPositions : gmap string (list Z) :=
  unordered_map_of boardsBoxPositions_stored.

(** [boardAltPresetsMap_t] (lines 432-435). *)
Record boardAltPresetsMap_t : Type := AltPreset { name : string; pin : list Z }.

(** [boardsAltPresets] (lines 439-477): a [std::unordered_multimap], which
    keeps every pair of a key; an association list in insertion order. *)
Definition boardsAltPresets : list (string * boardAltPresetsMap_t) :=
  [ ("rpipico", AltPreset "Test"
      [ btnPump;       btnPedal;       btnUnmapped;    btnUnmapped;    btnUnmapped;
        btnUnmapped;   btnUnmapped;    btnUnmapped;    btnUnmapped;    btnUnmapped;
        btnUnmapped;   btnUnmapped;    btnUnmapped;    btnUnmapped;    btnUnmapped;
        btnUnmapped;   btnUnmapped;    btnUnmapped;    btnUnmapped;    btnUnmapped;
        btnUnmapped;   btnUnmapped;    btnUnmapped;    unavailable;    unavailable;
        unavailable;   btnUnmapped;    btnUnmapped;    btnUnmapped;    unavailable ]);
    ("rpipico", AltPreset "Test 2"
      [ btnGunA;       btnTrigger;     btnUnmapped;    btnUnmapped;    btnUnmapped;
        btnUnmapped;   btnUnmapped;    btnUnmapped;    btnUnmapped;    btnUnmapped;
        btnUnmapped;   btnUnmapped;    btnUnmapped;    btnUnmapped;    btnUnmapped;
        btnUnmapped;   btnUnmapped;    btnUnmapped;    btnUnmapped;    btnUnmapped;
        btnUnmapped;   btnUnmapped;    btnUnmapped;    unavailable;    unavailable;
        unavailable;   btnUnmapped;    btnUnmapped;    btnUnmapped;    unavailable ]);
    ("adafruitItsyRP2040", AltPreset "SAMCO 2.0"
      [ btnUnmapped;   btnUnmapped;    camSDA;         camSCL;         btnPedal;
        btnUnmapped;   btnTrigger;     btnGunDown;     btnGunLeft;     btnGunUp;
        btnGunRight;   btnHome;        btnUnmapped;    unavailable;    unavailable;
        unavailable;   unavailable;    unavailable;    btnUnmapped;    btnUnmapped;
        btnUnmapped;   unavailable;    unavailable;    unavailable;    rumblePin;
        solenoidPin;   btnGunB;        btnGunA;        btnStart;       btnSelect ]);
    ("adafruitItsyRP2040", AltPreset "SAMCO 1.1"
      [ btnUnmapped;   btnUnmapped;    camSDA;         camSCL;         btnUnmapped;
        btnUnmapped;   btnGunA;        btnGunB;        rumblePin;      btnHome;
        btnTrigger;    btnUnmapped;    btnUnmapped;    unavailable;    unavailable;
        unavailable;   unavailable;    unavailable;    btnUnmapped;    btnUnmapped;
        btnUnmapped;   unavailable;    unavailable;    unavailable;    btnUnmapped;
        btnUnmapped;   btnUnmapped;    btnPedal;       btnUnmapped;    btnUnmapped ]) ].

(** The alternates of a board ([equal_range] on the multimap), in
    insertion order. *)
Definition lookupAlternates (board : string) : list boardAltPresetsMap_t :=
  map snd (List.filter (fun kv => String.eqb (fst kv) board) boardsAltPresets).

(** ** The serial command codes *)

(** The purposes the source groups the codes under (its section comments)
    and the specification names in its partition table. *)
Inductive cmd_group : Type :=
  | Docking
  | ModeToggle
  | TestTrigger
  | ErrorCode
  | Status
  | Commit
  | Get
  | Control
  | Unassigned.

#[global] Instance cmd_group_eq_dec : EqDecision cmd_group.
Proof. solve_decision. Defined.

(** [serialCmdTypes_e] (lines 159-213), section by section.  The last four
    enumerators follow the "get" section after a blank line, under no
    comment of their own: the general error, save, clear-flash and
    terminator codes. *)
Definition serialCmdTypes_sections : list (cmd_group * enum_decl) :=
  [ (* Docking commands *)
    (Docking,
      [ val "sDock1" 1;
        nxt "sDock2" ]);
    (* Mode toggles from app *)
    (ModeToggle,
      [ val "sIRTest" 5;
        nxt "sCaliProfile";
        nxt "sCaliStart";
        nxt "sCaliSens";
        nxt "sCaliLayout" ]);
    (* Test signals from app *)
    (TestTrigger,
      [ val "sTestSolenoid" 15;
        nxt "sTestRumble";
        nxt "sTestLEDR";
        nxt "sTestLEDG";
        nxt "sTestLEDB" ]);
    (* Error types from board (with sError) *)
    (ErrorCode,
      [ val "sErrCam" 0x80;
        nxt "sErrPeriphGeneric" ]);
    (* Status updates from board *)
    (Status,
      [ val "sBtnPressed" 0x90;
        nxt "sBtnReleased";
        nxt "sAnalogPosUpd";
        nxt "sTemperatureUpd";
        nxt "sCaliStageUpd";
        nxt "sCaliInfoUpd";
        nxt "sTestCoords";
        nxt "sCurrentProf" ]);
    (* Push settings to board *)
    (Commit,
      [ val "sCommitStart" 0xAA;
        nxt "sCommitToggles";
        nxt "sCommitPins";
        nxt "sCommitSettings";
        nxt "sCommitProfile";
        nxt "sCommitID";
        nxt "sCommitPeriphs" ]);
    (* Grab settings from board *)
    (Get,
      [ val "sGetPins" 0xC8;
        nxt "sGetToggles";
        nxt "sGetSettings";
        nxt "sGetProfile";
        nxt "sGetPeriphs" ]);
    (Control,
      [ val "sError" 0xFA;
        val "sSave" 0xFC;
        val "sClearFlash" 0xFD;
        val "serialTerminator" 0xFE ]) ].

(** The enumeration itself: the sections one after the other. *)
Definition serialCmdTypes_e : enum_decl :=
  concat (map snd serialCmdTypes_sections).

(** The section an enumerator is declared in. *)
Definition declared_group (cmd : string) : option cmd_group :=
  fst <$> List.find
    (fun s => existsb (fun e => String.eqb (fst e) cmd) (snd s))
    serialCmdTypes_sections.

(** The enumerator that has a given value, if one has. *)
Definition serialCmd_of_byte (b : Z) : option string :=
  fst <$> List.find (fun p => snd p =? b) (enum_values serialCmdTypes_e).

(** Modelled from the spec: the partition-membership query of the serial
    command code space.  The header declares the codes only; the query is
    the range table of the data model: 1-4 docking, 5-9 mode toggles, 15-19
    test triggers, 0x80-0x8F errors, 0x90-0x9F status, 0xAA-0xB5 commit,
    0xC8-0xD2 get, the four values 0xFA, 0xFC, 0xFD, 0xFE control, and
    unassigned otherwise. *)
Definition classify (b : Z) : cmd_group :=
  if (1 <=? b) && (b <=? 4) then Docking
  else if (5 <=? b) && (b <=? 9) then ModeToggle
  else if (15 <=? b) && (b <=? 19) then TestTrigger
  else if (0x80 <=? b) && (b <=? 0x8F) then ErrorCode
  else if (0x90 <=? b) && (b <=? 0x9F) then Status
  else if (0xAA <=? b) && (b <=? 0xB5) then Commit
  else if (0xC8 <=? b) && (b <=? 0xD2) then Get
  else if (b =? 0xFA) || (b =? 0xFC) || (b =? 0xFD) || (b =? 0xFE) then Control
  else Unassigned.

(** ** The layout position codec *)

(** The grids of [boardBoxPositions_e]. *)
Inductive region : Type := Nothing | Left | Right | Middle.

#[global] Instance region_eq_dec : EqDecision region.
Proof. solve_decision. Defined.

Definition regions : list region := [Nothing; Left; Right; Middle].

Definition region_value (r : region) : Z :=
  match r with
  | Nothing => posNothing
  | Left => posLeft
  | Right => posRight
  | Middle => posMiddle
  end.

(** Packing as the layout table writes it: the slot number plus the grid
    constant, stored as [unsigned int]. *)
Definition encode (r : region) (slot : Z) : Z :=
  to_unsigned (slot + region_value r).

(** Modelled from the spec: the decoder, which the header does not hold.
    The region is the largest of the four region constants that does not
    exceed the packed value, the slot is the remainder. *)
Definition largest_region_le (p : Z) : region :=
  fold_left
    (fun best r =>
       if (region_value r <=? p) && (region_value best <? region_value r)
       then r else best)
    regions Nothing.

Definition decode (p : Z) : region * Z :=
  let r := largest_region_le p in (r, p - region_value r).

(** ** Looking a board up *)

(** Modelled from the spec: [lookupDefault], which the header does not
    hold.  The board is looked up in [boardsPresetsMap]; a board that is not
    a key of it resolves to the entry of the reserved token [generic].  The
    result is optional because a map lookup can find nothing. *)
Definition lookupDefault (board : string) : option (list Z) :=
  match boardsPresetsMap !! board with
  | Some m => Some m
  | None => boardsPresetsMap !! "generic"
  end.

(** ** Checks on a pin mapping *)

(** A concrete pin function, as opposed to the two sentinels. *)
Definition is_function (f : Z) : bool := 0 <=? f.

(** How many GPIOs of a mapping are given the function [f]. *)
Definition owners (f : Z) (m : list Z) : nat :=
  length (List.filter (fun g => g =? f) m).

(** Every GPIO marked [unavailable] in mapping [m] is placed at
    [posNothing] in layout [l]. *)
Fixpoint unexposed_hidden (m l : list Z) : bool :=
  match m, l with
  | [], _ => true
  | f :: m', [] => negb (f =? unavailable) && unexposed_hidden m' []
  | f :: m', p :: l' =>
      (if f =? unavailable then p =? posNothing else true) && unexposed_hidden m' l'
  end.

(** The packed value [p] is the slot [p - region] of region [r], with the
    slot inside the slot field. *)
Definition in_region (r : region) (p : Z) : Prop :=
  0 <= p - region_value r < 512.

(** ** Checks and predicates used by the properties *)

(** The keys of [boardsPresetsMap]. *)
Definition supported_boards : list string :=
  [ "rpipico"; "rpipicow"; "adafruitItsyRP2040"; "adafruitKB2040";
    "arduinoNanoRP2040"; "waveshareZero" ].

(** The decoded slot of [p] lies inside the slot field. *)
Definition slot_fits (p : Z) : bool :=
  let s := snd (decode p) in (0 <=? s) && (s <? 512).

(** A list of integers that climbs strictly, starting above [lo]. *)
Fixpoint ascending_from (lo : Z) (l : list Z) : bool :=
  match l with
  | [] => true
  | v :: l' => (lo <? v) && ascending_from v l'
  end.

(** The codes in declaration order. *)
Definition serial_codes : list Z := map snd (enum_values serialCmdTypes_e).

(** Outside the printable ASCII range 33 to 127. *)
Definition nonprintable (v : Z) : bool := (v <? 33) || (127 <? v).

(** The enumerators whose value lies between 0 and [n], in declaration
    order. *)
Definition enum_upto (d : enum_decl) (n : Z) : list (string * Z) :=
  List.filter (fun p => (0 <=? snd p) && (snd p <=? n)) (enum_values d).

(** The enumeration [d] counts from zero to its marker: the marker has the
    value [n]; the values between 0 and [n], read in declaration order, are
    0, 1, ..., [n]; and every integer from 0 to [n] is the value of exactly
    one enumerator of [d] (no gap, no duplicate). *)
Definition counts_to (d : enum_decl) (marker : string) (n : Z) : Prop :=
  enum_value d marker = Some n
  /\ map snd (enum_upto d n) = seqZ 0 (n + 1)
  /\ forall v, 0 <= v <= n ->
       exists c, In (c, v) (enum_values d)
                 /\ forall c', In (c', v) (enum_values d) -> c' = c.

(** No concrete function of [m] occurs again further on in [m]. *)
Fixpoint functions_distinct (m : list Z) : bool :=
  match m with
  | [] => true
  | f :: m' =>
      (negb (is_function f) || negb (existsb (Z.eqb f) m'))
      && functions_distinct m'
  end.

(** The check over the registry: each board of [boardsPresetsMap] that
    has a layout in [boardsBoxPositions] hides its unexposed pins. *)
Definition registry_unexposed_hidden : bool :=
  forallb
    (fun kv =>
       match init_find boardsBoxPositions_stored (fst kv) with
       | Some l => unexposed_hidden (snd kv) l
       | None => true
       end)
    boardsPresetsMap_init.

(** A pin function value: a sentinel or a concrete function below the
    count marker. *)
Definition valid_function (f : Z) : bool :=
  (unavailable <=? f) && (f <? boardInputsCount).

(** ** The board identifier and the remaining enumerations *)

(** [OPENFIRE_BOARD] (lines 32-48): the [#ifdef] / [#elifdef] chain, as
    the macro each branch tests and the token the branch defines. *)
Definition OPENFIRE_BOARD_chain : list (string * string) :=
  [ ("ARDUINO_ADAFRUIT_ITSYBITSY_RP2040", "adafruitItsyRP2040");
    ("ARDUINO_ADAFRUIT_KB2040_RP2040",    "adafruitKB2040");
    ("ARDUINO_NANO_RP2040_CONNECT",       "arduinoNanoRP2040");
    ("ARDUINO_WAVESHARE_RP2040_ZERO",     "waveshareZero");
    ("ARDUINO_YD_RP2040",                 "vccgndYD");
    ("ARDUINO_RASPBERRY_PI_PICO",         "rpipico");
    ("ARDUINO_RASPBERRY_PI_PICO_W",       "rpipicow") ].

(** A conditional chain of the preprocessor: the branch of the first
    macro that is defined is taken, the [#else] branch if none is. *)
Fixpoint ifdef_chain (defined : string -> bool)
    (chain : list (string * string)) (otherwise : string) : string :=
  match chain with
  | [] => otherwise
  | (macro, token) :: rest =>
      if defined macro then token else ifdef_chain defined rest otherwise
  end.

(** The value of [OPENFIRE_BOARD] in a build, given which macros the
    toolchain defines. *)
Definition OPENFIRE_BOARD (defined : string -> bool) : string :=
  ifdef_chain defined OPENFIRE_BOARD_chain "generic".

(** [layoutTypes_e] (lines 132-137). *)
Definition layoutTypes_e : enum_decl :=
  [ val "layoutSquare" 0;
    nxt "layoutDiamond";
    nxt "layoutTypes" ].

(** [i2cPeriphTypes_e] (lines 140-150): the device types, then the
    setting types of the OLED, in one enumeration. *)
Definition i2cPeriphTypes_e : enum_decl :=
  [ val "i2cOLED" 0;
    nxt "i2cDevicesCount";
    val "i2cDevicesEnabled" 0xFA;
    val "oledAltAddr" 0;
    nxt "oledSettingsTypes" ].

(** [usbIdSyncTypes_e] (lines 232-235). *)
Definition usbIdSyncTypes_e : enum_decl :=
  [ val "usbPID" 0;
    nxt "usbName" ].

(** ** Editing an enumeration *)

(** The value an enumerator without initialiser would take after the
    declarations [d], numbering from [next]. *)
Fixpoint enum_next (next : Z) (d : enum_decl) : Z :=
  match d with
  | [] => next
  | (_, init) :: rest =>
      enum_next (match init with Some i => i | None => next end + 1) rest
  end.

(** The declarations above the line of [marker], and from that line on. *)
Fixpoint decl_before (marker : string) (d : enum_decl) : enum_decl :=
  match d with
  | [] => []
  | (n, init) :: rest =>
      if String.eqb n marker then [] else (n, init) :: decl_before marker rest
  end.

Fixpoint decl_from (marker : string) (d : enum_decl) : enum_decl :=
  match d with
  | [] => []
  | (n, init) :: rest =>
      if String.eqb n marker then (n, init) :: rest else decl_from marker rest
  end.

(** The edit the header asks for (lines 53-54, "Add here"): a new
    enumerator, without initialiser, on the line above the count marker. *)
Definition insert_above (marker new : string) (d : enum_decl) : enum_decl :=
  (decl_before marker d ++ nxt new :: decl_from marker d)%list.

(** The declarations [d] do not depend on what precedes them: they are
    empty or start with an explicit initialiser. *)
Definition starts_explicit (d : enum_decl) : bool :=
  match d with
  | [] => true
  | (_, Some _) :: _ => true
  | (_, None) :: _ => false
  end.

(** [marker] is a count line of [d] that can be appended above: it is
    declared without initialiser, and what follows it starts explicitly. *)
Definition count_line (marker : string) (d : enum_decl) : bool :=
  match decl_from marker d with
  | (_, None) :: post => starts_explicit post
  | _ => false
  end.

(** The enumerators declared after [marker], in order. *)
Fixpoint enum_after (marker : string) (e : list (string * Z)) : list (string * Z) :=
  match e with
  | [] => []
  | (n, v) :: rest =>
      if String.eqb n marker then rest else enum_after marker rest
  end.

(** ** Further checks on the tables *)

(** No two GPIOs of a layout are drawn at the same place: a packed value
    other than [posNothing] does not occur again further on. *)
Fixpoint positions_distinct (l : list Z) : bool :=
  match l with
  | [] => true
  | p :: l' =>
      ((p =? posNothing) || negb (existsb (Z.eqb p) l'))
      && positions_distinct l'
  end.

(** The packed value is [posNothing], or a slot from 1 to 20 of one of
    the three grids. *)
Definition slot_in_grid (p : Z) : bool :=
  (p =? posNothing)
  || existsb
       (fun r => (1 <=? p - region_value r) && (p - region_value r <=? 20))
       [Left; Right; Middle].

(** Every GPIO that mapping [m] gives a concrete function is drawn by
    layout [l]. *)
Fixpoint functions_drawn (m l : list Z) : bool :=
  match m, l with
  | [], _ => true
  | f :: m', [] => false
  | f :: m', p :: l' =>
      (negb (is_function f) || negb (p =? posNothing)) && functions_drawn m' l'
  end.

(** Two mappings mark the same GPIOs [unavailable]. *)
Fixpoint same_unexposed (m a : list Z) : bool :=
  match m, a with
  | [], [] => true
  | f :: m', g :: a' =>
      Bool.eqb (f =? unavailable) (g =? unavailable) && same_unexposed m' a'
  | _, _ => false
  end.

(** Wherever mapping [m] (read from GPIO [i] on) has the data line [sda]
    of a bus, the GPIO is even and the next one has the clock line [scl]. *)
Fixpoint bus_adjacent (sda scl : Z) (i : nat) (m : list Z) : bool :=
  match m with
  | [] => true
  | f :: m' =>
      (if f =? sda
       then Nat.even i && match m' with g :: _ => g =? scl | [] => false end
       else true)
      && bus_adjacent sda scl (S i) m'
  end.

(** The functions every default mapping provides: the trigger, the three
    gun buttons and the camera bus. *)
Definition essential_functions : list Z :=
  [ btnTrigger; btnGunA; btnGunB; btnGunC; camSDA; camSCL ].

(** The sections whose codes the app sends as control characters, and
    the ones above the ASCII range. *)
Definition low_section (g : cmd_group) : bool :=
  match g with
  | Docking | ModeToggle | TestTrigger => true
  | _ => false
  end.

(** The presets of the registry, default and alternate, each with the
    key of its board. *)
Definition all_presets : list (string * list Z) :=
  (boardsPresetsMap_init
     ++ map (fun kv => (fst kv, pin (snd kv))) boardsAltPresets)%list.

(** The check of the presets against the layouts: every preset belongs to
    a board with a layout, and the GPIOs it gives a function are drawn. *)
Definition registry_functions_drawn : bool :=
  forallb
    (fun kv =>
       match init_find boardsBoxPositions_stored (fst kv) with
       | Some l => functions_drawn (snd kv) l
       | None => false
       end)
    all_presets.

(** The check of the alternates against the defaults: every alternate
    belongs to a board with a default mapping and marks the same GPIOs
    [unavailable]. *)
Definition registry_same_unexposed : bool :=
  forallb
    (fun kv =>
       match init_find boardsPresetsMap_init (fst kv) with
       | Some m => same_unexposed m (pin (snd kv))
       | None => false
       end)
    boardsAltPresets.

(** The camera bus and the peripheral bus of a mapping are on adjacent
    GPIOs, data line first. *)
Definition bus_lines_ok (m : list Z) : bool :=
  bus_adjacent camSDA camSCL 0 m && bus_adjacent periphSDA periphSCL 0 m.

(** Each essential function has exactly one GPIO in mapping [m]. *)
Definition has_essentials (m : list Z) : bool :=
  forallb (fun f => Nat.eqb (owners f m) 1) essential_functions.

(** The value of an enumerator of [serialCmdTypes_e] is a byte other than
    0 and 0xFF, at most 32 in the low sections and at least 128 in the
    others. *)
Definition code_in_range (p : string * Z) : bool :=
  (1 <=? snd p) && (snd p <=? 254)
  && match declared_group (fst p) with
     | Some g => if low_section g then snd p <=? 32 else 128 <=? snd p
     | None => false
     end.

(** The packed value of [slot] in region [r] read as bit fields: the low
    nine bits hold the slot, bits 9 to 11 the region. *)
Definition bit_fields_ok (r : region) (slot : Z) : bool :=
  (Z.land (encode r slot) 0x1FF =? slot)
  && (Z.land (encode r slot) 0xE00 =? region_value r)
  && (encode r slot =? Z.lor (region_value r) slot).

(** * Properties *)

(** ** Maps built from initialiser lists *)

Section InitialiserLists.
Context {V : Type}.
Implicit Types (init : list (string * V)) (key : string).

(** Looking a key up in the map is finding its first pair in the list. *)
Lemma lookup_unordered_map_of init key :
  unordered_map_of init !! key = init_find init key.
Proof.
  unfold unordered_map_of, init_find.
  induction init as [|[k v] init IH]; simpl.
  - apply lookup_empty.
  - destruct (String.eqb_spec k key) as [->|Hne]; simpl.
    + apply lookup_insert_eq.
    + rewrite lookup_insert_ne by exact Hne. exact IH.
Qed.

(** What is found is one of the pairs of the list. *)
Lemma init_find_In init key v :
  init_find init key = Some v -> In (key, v) init.
Proof.
  unfold init_find.
  induction init as [|[k w] init IH]; simpl; [discriminate|].
  destruct (String.eqb_spec k key) as [->|Hne]; simpl.
  - intros [= ->]. now left.
  - intros H. right. now apply IH.
Qed.

Lemma lookup_unordered_map_of_In init key v :
  unordered_map_of init !! key = Some v -> In (key, v) init.
Proof. rewrite lookup_unordered_map_of. apply init_find_In. Qed.

(** A key has an entry exactly when it is a key of the list. *)
Lemma init_find_is_Some init key :
  is_Some (init_find init key) <-> In key (init_keys init).
Proof.
  unfold init_find, init_keys.
  induction init as [|[k w] init IH]; simpl.
  - split; [intros [? [=]] | intros []].
  - destruct (String.eqb_spec k key) as [->|Hne]; simpl.
    + split; [now left | now eexists].
    + rewrite IH. split; [now right | intros [?|?]; [contradiction|assumption]].
Qed.
End InitialiserLists.

(** A boolean check that passes on every value of an initialiser list
    passes on whatever a lookup in the map returns. *)
Lemma unordered_map_of_check {V : Type} (chk : V -> bool) (init : list (string * V)) :
  forallb (fun kv => chk (snd kv)) init = true ->
  forall key v, unordered_map_of init !! key = Some v -> chk v = true.
Proof.
  intros Hall key v Hlook.
  apply lookup_unordered_map_of_In in Hlook.
  rewrite List.forallb_forall in Hall.
  exact (Hall (key, v) Hlook).
Qed.

(** A check that passes on a whole vector passes on each element read
    from it by index. *)
Lemma forallb_lookup {A : Type} (chk : A -> bool) (l : list A) (i : nat) (x : A) :
  forallb chk l = true -> l !! i = Some x -> chk x = true.
Proof.
  intros Hall Hx.
  rewrite List.forallb_forall in Hall.
  apply Hall, list_elem_of_In, (list_elem_of_lookup_2 l i x Hx).
Qed.

(** ** C1: the default-preset registry and the [generic] token *)

Lemma boardsPresetsMap_generic : boardsPresetsMap !! "generic" = None.
Proof.
  unfold boardsPresetsMap. rewrite lookup_unordered_map_of. reflexivity.
Qed.

Lemma boardsPresetsMap_keys (board : string) :
  is_Some (boardsPresetsMap !! board) <-> In board supported_boards.
Proof.
  unfold boardsPresetsMap. rewrite lookup_unordered_map_of.
  apply init_find_is_Some.
Qed.

(** C1, as the code has it.  [boardsPresetsMap] has an entry for exactly
    the six supported boards and none for [generic].  For a board identifier
    that is not a key of it the lookup finds nothing, and [lookupDefault] has
    no [generic] mapping to fall back to, so it yields no mapping either; for
    a key it yields that board's own mapping.  The reserved token [generic]
    has its entries in the app-side tables [boardsBoxPositions] and
    [boardNames]. *)
Theorem lookupDefault_unrecognized :
  (forall board,
     is_Some (boardsPresetsMap !! board) <-> In board supported_boards)
  /\ boardsPresetsMap !! "generic" = None
  /\ (forall board,
        boardsPresetsMap !! board = None -> lookupDefault board = None)
  /\ (forall board m,
        boardsPresetsMap !! board = Some m -> lookupDefault board = Some m)
  /\ is_Some (boardsBoxPositions !! "generic")
  /\ boardNames !! "generic" = Some "Unknown Board".
Proof.
  split; [|split; [|split; [|split; [|split]]]].
  - exact boardsPresetsMap_keys.
  - exact boardsPresetsMap_generic.
  - intros board Hnone.
    unfold lookupDefault. rewrite Hnone. exact boardsPresetsMap_generic.
  - intros board m Hm. unfold lookupDefault. now rewrite Hm.
  - unfold boardsBoxPositions. rewrite lookup_unordered_map_of.
    now eexists.
  - unfold boardNames. rewrite lookup_unordered_map_of. reflexivity.
Qed.

(** The theorem at the token [generic] itself, which is not a key. *)
Lemma lookupDefault_unrecognized_witness :
  boardsPresetsMap !! "generic" = None /\ lookupDefault "generic" = None.
Proof.
  split.
  - exact boardsPresetsMap_generic.
  - exact (proj1 (proj2 (proj2 lookupDefault_unrecognized))
             "generic" boardsPresetsMap_generic).
Defined.

(** C1 as stated fails: [boardsPresetsMap] has no entry for [generic], and
    the unrecognized token [unknownBoard] does not resolve to a mapping. *)
Lemma generic_preset_absent :
  boardsPresetsMap !! "unknownBoard" = None
  /\ lookupDefault "unknownBoard" = None
  /\ boardsPresetsMap !! "generic" = None
  /\ ~ (exists g, boardsPresetsMap !! "generic" = Some g
                  /\ lookupDefault "unknownBoard" = Some g).
Proof.
  assert (Hg : boardsPresetsMap !! "generic" = None)
    by exact boardsPresetsMap_generic.
  assert (Hu : boardsPresetsMap !! "unknownBoard" = None).
  { unfold boardsPresetsMap. rewrite lookup_unordered_map_of. reflexivity. }
  split; [exact Hu|split; [|split]].
  - unfold lookupDefault. rewrite Hu. exact Hg.
  - exact Hg.
  - intros [g [Hsome _]]. rewrite Hg in Hsome. discriminate.
Qed.

(** ** C2: the codec round trip *)

(** The fold of [largest_region_le] over the four regions, unfolded: the
    constants are tried from the largest down. *)
Lemma largest_region_le_cases (p : Z) :
  largest_region_le p =
    if posMiddle <=? p then Middle
    else if posRight <=? p then Right
    else if posLeft <=? p then Left
    else Nothing.
Proof.
  unfold largest_region_le, regions; simpl.
  unfold region_value at 1 3 5 7.
  unfold posNothing, posLeft, posRight, posMiddle.
  destruct (Z.leb_spec 2048 p), (Z.leb_spec 1024 p), (Z.leb_spec 512 p),
    (Z.leb_spec 0 p); simpl; try reflexivity; lia.
Qed.

(** A sum that stays inside 32 bits is stored unchanged. *)
Lemma encode_small (r : region) (slot : Z) :
  0 <= slot < 512 -> encode r slot = slot + region_value r.
Proof.
  intros Hslot. unfold encode, to_unsigned.
  apply Z.mod_small.
  destruct r; unfold region_value, posNothing, posLeft, posRight, posMiddle; lia.
Qed.

(** The region of a value that lies in a region's slot field is that
    region. *)
Lemma largest_region_le_in_region (r : region) (p : Z) :
  in_region r p -> largest_region_le p = r.
Proof.
  unfold in_region. rewrite largest_region_le_cases.
  destruct r; unfold region_value, posNothing, posLeft, posRight, posMiddle;
    intros Hp;
    repeat match goal with
           | |- context [?a <=? ?b] => destruct (Z.leb_spec a b)
           end; try reflexivity; lia.
Qed.

(** C2.  For every region and every slot with [0 <= slot < 512], decoding
    the encoded position gives back the region and the slot; and
    [encode Left 7 = 519], [decode 519 = (Left, 7)]. *)
Theorem decode_encode :
  (forall (r : region) (slot : Z),
     0 <= slot < 512 -> decode (encode r slot) = (r, slot))
  /\ encode Left 7 = 519
  /\ decode 519 = (Left, 7).
Proof.
  split; [|split].
  - intros r slot Hslot.
    rewrite encode_small by exact Hslot.
    unfold decode.
    rewrite (largest_region_le_in_region r) by (unfold in_region; lia).
    f_equal. lia.
  - reflexivity.
  - unfold decode. rewrite (largest_region_le_in_region Left); [reflexivity|].
    unfold in_region, region_value, posLeft. lia.
Qed.

(** The round trip at the specification's example, region [Left], slot 7. *)
Lemma decode_encode_witness :
  0 <= 7 < 512 /\ decode (encode Left 7) = (Left, 7).
Proof.
  assert (H : 0 <= 7 < 512) by lia.
  exact (conj H (proj1 decode_encode Left 7 H)).
Defined.

(** ** C9: the stored layout values *)

(** No value lies in the slot field of two regions: the fields are
    512 wide and the constants at least 512 apart. *)
Lemma in_region_unique (r r' : region) (p : Z) :
  in_region r p -> in_region r' p -> r' = r.
Proof.
  unfold in_region.
  destruct r, r'; unfold region_value, posNothing, posLeft, posRight, posMiddle;
    intros H H'; try reflexivity; lia.
Qed.

Lemma slot_fits_in_region (p : Z) :
  slot_fits p = true -> in_region (fst (decode p)) p.
Proof.
  unfold slot_fits, in_region, decode; simpl.
  rewrite andb_true_iff, Z.leb_le, Z.ltb_lt. tauto.
Qed.

(** C9.  Every value stored in [boardsBoxPositions], for every board and
    every GPIO index, lies in the slot field of exactly one region: it is
    that region's constant plus a slot below 512.  Decoding it finds that
    region with a remainder below 512, and encoding the decoded pair gives
    the stored value back. *)
Theorem stored_positions_well_packed
    (board : string) (l : list Z) (i : nat) (p : Z) :
  boardsBoxPositions !! board = Some l ->
  l !! i = Some p ->
  (exists r, in_region r p /\ forall r', in_region r' p -> r' = r)
  /\ 0 <= snd (decode p) < 512
  /\ encode (fst (decode p)) (snd (decode p)) = p.
Proof.
  intros Hl Hp.
  assert (Hfit : slot_fits p = true).
  { apply (forallb_lookup slot_fits l i p); [|exact Hp].
    apply (unordered_map_of_check (forallb slot_fits)
             boardsBoxPositions_stored) with (key := board); [|exact Hl].
    vm_compute. reflexivity. }
  pose proof (slot_fits_in_region p Hfit) as Hin.
  split; [|split].
  - exists (fst (decode p)). split; [exact Hin|].
    intros r' Hr'. exact (in_region_unique _ _ p Hin Hr').
  - exact Hin.
  - rewrite encode_small by exact Hin. simpl. lia.
Qed.

(** GPIO 16 of the Pico, stored as [20 + posRight]. *)
Lemma stored_positions_well_packed_witness :
  (exists r, in_region r 1044 /\ forall r', in_region r' 1044 -> r' = r)
  /\ 0 <= snd (decode 1044) < 512
  /\ encode (fst (decode 1044)) (snd (decode 1044)) = 1044.
Proof.
  apply (stored_positions_well_packed "rpipico"
           (map to_unsigned
              [ 1+posLeft;     2+posLeft;      4+posLeft;      5+posLeft;      6+posLeft;
                7+posLeft;     9+posLeft;      10+posLeft;     11+posLeft;     12+posLeft;
                14+posLeft;    15+posLeft;     16+posLeft;     17+posLeft;     19+posLeft;
                20+posLeft;    20+posRight;    19+posRight;    17+posRight;    16+posRight;
                15+posRight;   14+posRight;    12+posRight;    posNothing;     posNothing;
                posNothing;    10+posRight;    9+posRight;     7+posRight;     posNothing ])
           16%nat 1044).
  - unfold boardsBoxPositions. rewrite lookup_unordered_map_of. reflexivity.
  - reflexivity.
Defined.

(** ** C3: the serial command codes are distinct and not printable *)

Lemma ascending_from_above (lo : Z) (l : list Z) (v : Z) :
  ascending_from lo l = true -> In v l -> lo < v.
Proof.
  revert lo. induction l as [|w l IH]; simpl; intros lo Hasc Hin; [contradiction|].
  apply andb_true_iff in Hasc as [Hlo Hrest]. apply Z.ltb_lt in Hlo.
  destruct Hin as [->|Hin]; [exact Hlo|].
  specialize (IH w Hrest Hin). lia.
Qed.

Lemma ascending_from_NoDup (lo : Z) (l : list Z) :
  ascending_from lo l = true -> List.NoDup l.
Proof.
  revert lo. induction l as [|w l IH]; simpl; intros lo Hasc; [constructor|].
  apply andb_true_iff in Hasc as [_ Hrest].
  constructor.
  - intros Hin. pose proof (ascending_from_above w l w Hrest Hin). lia.
  - exact (IH w Hrest).
Qed.

(** In a list of pairs whose second components are distinct, a second
    component belongs to one first component only. *)
Lemma NoDup_snd_unique {A B : Type} (l : list (A * B)) (a b : A) (v : B) :
  List.NoDup (map snd l) -> In (a, v) l -> In (b, v) l -> a = b.
Proof.
  induction l as [|[c w] l IH]; simpl; intros Hnd Ha Hb; [contradiction|].
  inversion Hnd as [|? ? Hnotin Hnd']; subst.
  destruct Ha as [Ha|Ha], Hb as [Hb|Hb].
  - congruence.
  - exfalso. apply Hnotin. simpl.
    replace w with v by congruence. exact (in_map snd l (b, v) Hb).
  - exfalso. apply Hnotin. simpl.
    replace w with v by congruence. exact (in_map snd l (a, v) Ha).
  - exact (IH Hnd' Ha Hb).
Qed.

(** Each section starts above the end of the one before it, so the codes
    climb strictly in declaration order. *)
Lemma serial_codes_ascending : ascending_from 0 serial_codes = true.
Proof. vm_compute. reflexivity. Qed.

(** C3.  The values of the enumerators of [serialCmdTypes_e] are pairwise
    distinct (no value is listed twice, and a value belongs to one
    enumerator only), and none of them lies in the printable ASCII range
    33 to 127 inclusive. *)
Theorem serial_codes_distinct_nonprintable :
  List.NoDup serial_codes
  /\ (forall c1 c2 v,
        In (c1, v) (enum_values serialCmdTypes_e) ->
        In (c2, v) (enum_values serialCmdTypes_e) -> c1 = c2)
  /\ (forall c v,
        In (c, v) (enum_values serialCmdTypes_e) -> ~ (33 <= v <= 127)).
Proof.
  assert (Hnd : List.NoDup serial_codes)
    by exact (ascending_from_NoDup 0 _ serial_codes_ascending).
  split; [exact Hnd|split].
  - intros c1 c2 v H1 H2. exact (NoDup_snd_unique _ c1 c2 v Hnd H1 H2).
  - intros c v Hin.
    assert (Hall : forallb (fun p => nonprintable (snd p))
                     (enum_values serialCmdTypes_e) = true)
      by (vm_compute; reflexivity).
    rewrite List.forallb_forall in Hall. specialize (Hall (c, v) Hin).
    unfold nonprintable in Hall; simpl in Hall.
    apply orb_true_iff in Hall as [H|H]; apply Z.ltb_lt in H; lia.
Qed.

(** The theorem at the enumerator [sCommitStart], value 170. *)
Lemma serial_codes_distinct_nonprintable_witness :
  In ("sCommitStart", 170) (enum_values serialCmdTypes_e)
  /\ ~ (33 <= 170 <= 127).
Proof.
  assert (Hin : In ("sCommitStart", 170) (enum_values serialCmdTypes_e)).
  { vm_compute. do 22 right. left. reflexivity. }
  split; [exact Hin|].
  exact (proj2 (proj2 serial_codes_distinct_nonprintable) "sCommitStart" 170 Hin).
Defined.

(** ** C6: the codes fall in the ranges of their sections *)

(** C6.  The range classification gives every enumerator of
    [serialCmdTypes_e] the group of the section it is declared in; byte
    0xAA is the commit code [sCommitStart] and byte 0xC8 the get code
    [sGetPins]. *)
Theorem classify_declared_group :
  (forall (cmd : string) (v : Z),
     In (cmd, v) (enum_values serialCmdTypes_e) ->
     declared_group cmd = Some (classify v) /\ classify v <> Unassigned)
  /\ classify 0xAA = Commit /\ serialCmd_of_byte 0xAA = Some "sCommitStart"
  /\ classify 0xC8 = Get /\ serialCmd_of_byte 0xC8 = Some "sGetPins".
Proof.
  split; [|repeat split; reflexivity].
  intros cmd v Hin.
  assert (Hall : forallb
            (fun p => bool_decide (declared_group (fst p) = Some (classify (snd p)))
                      && negb (bool_decide (classify (snd p) = Unassigned)))
            (enum_values serialCmdTypes_e) = true)
    by (vm_compute; reflexivity).
  rewrite List.forallb_forall in Hall. specialize (Hall (cmd, v) Hin).
  simpl in Hall. apply andb_true_iff in Hall as [Hgroup Hassigned].
  apply bool_decide_eq_true in Hgroup.
  apply negb_true_iff, bool_decide_eq_false in Hassigned.
  split; [exact Hgroup|exact Hassigned].
Qed.

(** The theorem at the enumerator [sGetPins], value 200. *)
Lemma classify_declared_group_witness :
  In ("sGetPins", 200) (enum_values serialCmdTypes_e)
  /\ declared_group "sGetPins" = Some (classify 200).
Proof.
  assert (Hin : In ("sGetPins", 200) (enum_values serialCmdTypes_e)).
  { vm_compute. do 29 right. left. reflexivity. }
  split; [exact Hin|].
  exact (proj1 (proj1 classify_declared_group "sGetPins" 200 Hin)).
Defined.

(** ** C7: the catalogs count from zero up to their count marker *)

(** It is enough that the values between 0 and [n], read in declaration
    order, are 0, 1, ..., [n]. *)
Lemma counts_to_intro (d : enum_decl) (marker : string) (n : Z) :
  enum_value d marker = Some n ->
  map snd (enum_upto d n) = seqZ 0 (n + 1) ->
  counts_to d marker n.
Proof.
  intros Hmarker Hseq. split; [exact Hmarker|split; [exact Hseq|]].
  intros v Hv.
  assert (Hnd : List.NoDup (map snd (enum_upto d n))).
  { rewrite Hseq. apply NoDup_ListNoDup, NoDup_seqZ. }
  assert (Hupto : forall c, In (c, v) (enum_values d) -> In (c, v) (enum_upto d n)).
  { intros c Hc. apply List.filter_In. split; [exact Hc|]. simpl.
    apply andb_true_iff. rewrite Z.leb_le, Z.leb_le. lia. }
  assert (Hv' : In v (map snd (enum_upto d n))).
  { rewrite Hseq. apply list_elem_of_In, elem_of_seqZ. lia. }
  apply List.in_map_iff in Hv' as [[c w] [Hw Hc]]. simpl in Hw. subst w.
  exists c. split.
  - apply List.filter_In in Hc. exact (proj1 Hc).
  - intros c' Hc'.
    exact (NoDup_snd_unique _ c' c v Hnd (Hupto c' Hc') Hc).
Qed.

(** C7.  [boardInputs_e], [profSyncTypes_e], [settingsTypes_e] and
    [boolTypes_e] each give the values 0, 1, 2, ... up to their count marker
    ([boardInputsCount] = 32, [profDataTypes] = 12, [settingsTypesCount] =
    13, [boolTypesCount] = 10), each value to exactly one enumerator.  The
    sentinels of [boardInputs_e] are [unavailable] = -2 < [btnUnmapped] = -1
    < [btnTrigger] = 0, and every other enumerator of it is at least 0. *)
Theorem catalogs_count_from_zero :
  counts_to boardInputs_e "boardInputsCount" 32
  /\ counts_to profSyncTypes_e "profDataTypes" 12
  /\ counts_to settingsTypes_e "settingsTypesCount" 13
  /\ counts_to boolTypes_e "boolTypesCount" 10
  /\ enum_value boardInputs_e "unavailable" = Some (-2)
  /\ enum_value boardInputs_e "btnUnmapped" = Some (-1)
  /\ enum_value boardInputs_e "btnTrigger" = Some 0
  /\ unavailable < btnUnmapped < btnTrigger
  /\ (forall c v, In (c, v) (enum_values boardInputs_e) ->
        v < 0 -> c = "unavailable" \/ c = "btnUnmapped").
Proof.
  repeat match goal with
         | |- counts_to _ _ _ /\ _ =>
             split; [apply counts_to_intro; vm_compute; reflexivity|]
         end.
  split; [reflexivity|split; [reflexivity|split; [reflexivity|split]]].
  - unfold unavailable, btnUnmapped, btnTrigger. lia.
  - intros c v Hin Hneg.
    assert (Hall : forallb
              (fun p => (0 <=? snd p)
                        || String.eqb (fst p) "unavailable"
                        || String.eqb (fst p) "btnUnmapped")
              (enum_values boardInputs_e) = true)
      by (vm_compute; reflexivity).
    rewrite List.forallb_forall in Hall. specialize (Hall (c, v) Hin).
    simpl in Hall.
    apply orb_true_iff in Hall as [Hall|Hall];
      [apply orb_true_iff in Hall as [Hall|Hall]|].
    + apply Z.leb_le in Hall. lia.
    + left. now apply String.eqb_eq.
    + right. now apply String.eqb_eq.
Qed.

(** The value 30 of [boardInputs_e] belongs to [tempPin] alone. *)
Lemma catalogs_count_from_zero_witness :
  exists c, In (c, 30) (enum_values boardInputs_e)
            /\ forall c', In (c', 30) (enum_values boardInputs_e) -> c' = c.
Proof.
  apply (proj2 (proj2 (proj1 catalogs_count_from_zero)) 30). lia.
Defined.

(** ** C4: no function is given to two GPIOs of a mapping *)

Lemma owners_cons (f g : Z) (m : list Z) :
  owners f (g :: m) = ((if (g =? f)%Z then 1 else 0) + owners f m)%nat.
Proof. unfold owners; simpl. now destruct (g =? f). Qed.

Lemma owners_absent (f : Z) (m : list Z) :
  existsb (Z.eqb f) m = false -> owners f m = 0%nat.
Proof.
  induction m as [|g m IH]; simpl; intros Hm; [reflexivity|].
  apply orb_false_iff in Hm as [Hg Hm].
  rewrite owners_cons, (IH Hm), Z.eqb_sym, Hg. reflexivity.
Qed.

Lemma functions_distinct_owners (m : list Z) :
  functions_distinct m = true ->
  forall f, 0 <= f -> (owners f m <= 1)%nat.
Proof.
  induction m as [|g m IH]; simpl; intros Hm f Hf.
  - unfold owners; simpl. lia.
  - apply andb_true_iff in Hm as [Hg Hm].
    specialize (IH Hm f Hf). rewrite owners_cons.
    destruct (Z.eqb_spec g f) as [->|Hne]; [|lia].
    apply orb_true_iff in Hg as [Hg|Hg].
    + unfold is_function in Hg. apply negb_true_iff, Z.leb_gt in Hg. lia.
    + apply negb_true_iff in Hg. rewrite (owners_absent f m Hg). lia.
Qed.

(** C4.  In every default mapping of [boardsPresetsMap] and every
    alternate mapping of [boardsAltPresets], a concrete pin function (a value
    of 0 or more) is the entry of at most one GPIO.  The sentinels are not
    constrained: [unavailable] is the entry of four GPIOs and [btnUnmapped]
    of three in the default mapping of the Pico. *)
Theorem presets_no_shared_function :
  (forall board m f,
     boardsPresetsMap !! board = Some m -> 0 <= f -> (owners f m <= 1)%nat)
  /\ (forall board alt f,
        In (board, alt) boardsAltPresets -> 0 <= f ->
        (owners f (pin alt) <= 1)%nat)
  /\ (exists m, boardsPresetsMap !! "rpipico" = Some m
                /\ owners unavailable m = 4%nat
                /\ owners btnUnmapped m = 3%nat).
Proof.
  split; [|split].
  - intros board m f Hm Hf.
    apply functions_distinct_owners; [|exact Hf].
    apply (unordered_map_of_check functions_distinct boardsPresetsMap_init)
      with (key := board); [|exact Hm].
    vm_compute. reflexivity.
  - intros board alt f Hin Hf.
    apply functions_distinct_owners; [|exact Hf].
    assert (Hall : forallb (fun kv => functions_distinct (pin (snd kv)))
                     boardsAltPresets = true)
      by (vm_compute; reflexivity).
    rewrite List.forallb_forall in Hall. exact (Hall (board, alt) Hin).
  - unfold boardsPresetsMap. rewrite lookup_unordered_map_of.
    eexists. split; [reflexivity|]. split; reflexivity.
Qed.

(** The theorem at the default mapping of the KB2040 and the function
    [btnTrigger], which GPIO 28 alone has. *)
Lemma presets_no_shared_function_witness :
  (owners btnTrigger
     [ btnUnmapped;   btnUnmapped;    camSDA;         camSCL;         btnGunB;
       rumblePin;     btnGunC;        solenoidPin;    btnSelect;      btnStart;
       btnGunRight;   unavailable;    unavailable;    unavailable;    unavailable;
       unavailable;   unavailable;    unavailable;    btnGunUp;       btnGunLeft;
       btnGunDown;    unavailable;    unavailable;    unavailable;    unavailable;
       unavailable;   tempPin;        btnHome;        btnTrigger;     btnGunA ]
   <= 1)%nat.
Proof.
  apply (proj1 presets_no_shared_function "adafruitKB2040").
  - unfold boardsPresetsMap. rewrite lookup_unordered_map_of. reflexivity.
  - unfold btnTrigger. lia.
Defined.

(** ** C5: every vector has one entry per GPIO of the RP2040 *)

(** C5.  Every default mapping of [boardsPresetsMap], every alternate
    mapping of [boardsAltPresets] and every layout vector of
    [boardsBoxPositions] has 30 entries, one per GPIO 0 to 29 of the
    RP2040. *)
Theorem tables_have_30_entries :
  (forall board m, boardsPresetsMap !! board = Some m -> length m = 30%nat)
  /\ (forall board alt,
        In (board, alt) boardsAltPresets -> length (pin alt) = 30%nat)
  /\ (forall board l, boardsBoxPositions !! board = Some l -> length l = 30%nat).
Proof.
  split; [|split].
  - intros board m Hm. apply Nat.eqb_eq.
    apply (unordered_map_of_check (fun v => Nat.eqb (length v) 30)
             boardsPresetsMap_init) with (key := board); [|exact Hm].
    reflexivity.
  - intros board alt Hin.
    assert (Hall : forallb (fun kv => Nat.eqb (length (pin (snd kv))) 30)
                     boardsAltPresets = true)
      by reflexivity.
    rewrite List.forallb_forall in Hall.
    apply Nat.eqb_eq. exact (Hall (board, alt) Hin).
  - intros board l Hl. apply Nat.eqb_eq.
    apply (unordered_map_of_check (fun v => Nat.eqb (length v) 30)
             boardsBoxPositions_stored) with (key := board); [|exact Hl].
    reflexivity.
Qed.

(** The theorem at the default mapping of the Waveshare Zero. *)
Lemma tables_have_30_entries_witness :
  length
    [ btnTrigger;    btnGunA;        btnGunB;        btnGunC;        btnStart;
      btnSelect;     btnUnmapped;    btnUnmapped;    btnUnmapped;    btnUnmapped;
      btnUnmapped;   btnUnmapped;    btnUnmapped;    btnUnmapped;    camSDA;
      camSCL;        unavailable;    btnUnmapped;    btnUnmapped;    btnUnmapped;
      btnUnmapped;   btnUnmapped;    btnUnmapped;    btnUnmapped;    btnUnmapped;
      btnUnmapped;   btnUnmapped;    btnUnmapped;    btnUnmapped;    tempPin ]
  = 30%nat.
Proof.
  apply (proj1 tables_have_30_entries "waveshareZero").
  unfold boardsPresetsMap. rewrite lookup_unordered_map_of. reflexivity.
Defined.

(** ** C8: unexposed pins are not drawn *)

Lemma unexposed_hidden_lookup (m l : list Z) :
  unexposed_hidden m l = true ->
  forall i : nat, m !! i = Some unavailable -> l !! i = Some posNothing.
Proof.
  revert l. induction m as [|f m IH]; intros l Hml i Hi.
  - destruct i; discriminate.
  - destruct l as [|p l]; simpl in Hml;
      apply andb_true_iff in Hml as [Hhead Hrest].
    + destruct i as [|i]; simpl in Hi.
      * injection Hi as ->. discriminate.
      * specialize (IH [] Hrest i Hi). destruct i; discriminate.
    + destruct i as [|i]; simpl in Hi.
      * injection Hi as ->. simpl in Hhead.
        apply Z.eqb_eq in Hhead. now subst p.
      * exact (IH l Hrest i Hi).
Qed.

(** C8.  For a board with a default mapping in [boardsPresetsMap] and a
    layout in [boardsBoxPositions], every GPIO index whose default entry is
    [unavailable] has the layout entry [posNothing]. *)
Theorem unavailable_pins_at_posNothing
    (board : string) (m l : list Z) (i : nat) :
  boardsPresetsMap !! board = Some m ->
  boardsBoxPositions !! board = Some l ->
  m !! i = Some unavailable ->
  l !! i = Some posNothing.
Proof.
  intros Hm Hl Hi.
  apply (unexposed_hidden_lookup m l); [|exact Hi].
  assert (Hall : registry_unexposed_hidden = true) by (vm_compute; reflexivity).
  unfold registry_unexposed_hidden in Hall.
  rewrite List.forallb_forall in Hall.
  apply lookup_unordered_map_of_In in Hm.
  specialize (Hall (board, m) Hm). simpl in Hall.
  unfold boardsBoxPositions in Hl. rewrite lookup_unordered_map_of in Hl.
  rewrite Hl in Hall. exact Hall.
Qed.

(** The theorem at GPIO 23 of the Pico, which the board does not expose. *)
Lemma unavailable_pins_at_posNothing_witness :
  map to_unsigned
    [ 1+posLeft;     2+posLeft;      4+posLeft;      5+posLeft;      6+posLeft;
      7+posLeft;     9+posLeft;      10+posLeft;     11+posLeft;     12+posLeft;
      14+posLeft;    15+posLeft;     16+posLeft;     17+posLeft;     19+posLeft;
      20+posLeft;    20+posRight;    19+posRight;    17+posRight;    16+posRight;
      15+posRight;   14+posRight;    12+posRight;    posNothing;     posNothing;
      posNothing;    10+posRight;    9+posRight;     7+posRight;     posNothing ]
    !! 23%nat
  = Some posNothing.
Proof.
  apply (unavailable_pins_at_posNothing "rpipico"
           [ btnGunA;       btnGunB;        btnGunC;        btnStart;       btnSelect;
             btnHome;       btnGunUp;       btnGunDown;     btnGunLeft;     btnGunRight;
             ledR;          ledG;           ledB;           btnPump;        btnPedal;
             btnTrigger;    solenoidPin;    rumblePin;      periphSDA;      periphSCL;
             camSDA;        camSCL;         btnUnmapped;    unavailable;    unavailable;
             unavailable;   btnUnmapped;    btnUnmapped;    tempPin;        unavailable ]).
  - unfold boardsPresetsMap. rewrite lookup_unordered_map_of. reflexivity.
  - unfold boardsBoxPositions. rewrite lookup_unordered_map_of. reflexivity.
  - reflexivity.
Defined.

(** ** C10: the label table covers the pin functions *)

(** C10.  [valuesNameList] has [boardInputsCount + 1] = 33 entries.  For
    every pin function [f] from [btnUnmapped] (-1) up to, not including,
    [boardInputsCount], index [f + 1] is inside the table; [unavailable]
    has no label.  Read in catalog order, the labels are the one of
    [btnUnmapped] and then one per concrete function. *)
Theorem valuesNameList_covers_functions :
  Z.of_nat (length valuesNameList) = boardInputsCount + 1
  /\ length valuesNameList = 33%nat
  /\ (forall f, btnUnmapped <= f < boardInputsCount ->
        0 <= f + 1 < Z.of_nat (length valuesNameList)
        /\ is_Some (pinLabel f))
  /\ pinLabel unavailable = None
  /\ map (fun p => (fst p, pinLabel (snd p)))
        (enum_before "boardInputsCount" (enum_values boardInputs_e))
     = [ ("unavailable", None);
         ("btnUnmapped", Some "Unmapped");
         ("btnTrigger", Some "Trigger");
         ("btnGunA", Some "Button A");
         ("btnGunB", Some "Button B");
         ("btnGunC", Some "Button C");
         ("btnStart", Some "Start");
         ("btnSelect", Some "Select");
         ("btnGunUp", Some "D-Pad Up");
         ("btnGunDown", Some "D-Pad Down");
         ("btnGunLeft", Some "D-Pad Left");
         ("btnGunRight", Some "D-Pad Right");
         ("btnPedal", Some "Pedal");
         ("btnPedal2", Some "Alt Pedal");
         ("btnPump", Some "Pump Action");
         ("btnHome", Some "Home Button");
         ("rumblePin", Some "Rumble Signal");
         ("solenoidPin", Some "Solenoid Signal");
         ("rumbleSwitch", Some "Rumble Switch");
         ("solenoidSwitch", Some "Solenoid Switch");
         ("autofireSwitch", Some "Autofire Switch");
         ("neoPixel", Some "External NeoPixel");
         ("ledR", Some "RGB LED Red");
         ("ledG", Some "RGB LED Green");
         ("ledB", Some "RGB LED Blue");
         ("camSDA", Some "Camera SDA");
         ("camSCL", Some "Camera SCL");
         ("periphSDA", Some "Peripherals SDA");
         ("periphSCL", Some "Peripherals SCL");
         ("battery", Some "Battery Sensor (Unused)");
         ("analogX", Some "Analog Stick X");
         ("analogY", Some "Analog Stick Y");
         ("tempPin", Some "Temp Sensor");
         ("wiiClockGen", Some "Wii Cam Clock") ].
Proof.
  assert (Hlen : length valuesNameList = 33%nat) by reflexivity.
  split; [|split; [exact Hlen|split; [|split]]].
  - rewrite Hlen. reflexivity.
  - intros f Hf. unfold btnUnmapped, boardInputsCount in Hf.
    split; [rewrite Hlen; lia|].
    unfold pinLabel, valuesNameList_at.
    destruct (Z.ltb_spec (f + 1) 0) as [Hneg|_]; [lia|].
    apply lookup_lt_is_Some_2. rewrite Hlen. lia.
  - reflexivity.
  - vm_compute. reflexivity.
Qed.

(** The theorem at [tempPin], labelled by entry 31. *)
Lemma valuesNameList_covers_functions_witness :
  btnUnmapped <= tempPin < boardInputsCount /\ is_Some (pinLabel tempPin).
Proof.
  assert (H : btnUnmapped <= tempPin < boardInputsCount)
    by (unfold btnUnmapped, tempPin, boardInputsCount; lia).
  split; [exact H|].
  exact (proj2 (proj1 (proj2 (proj2 valuesNameList_covers_functions)) tempPin H)).
Defined.

(** ** Further properties of the registry *)

(** The specification's lookup example: on the Pico, GPIO 0 is [btnGunA]
    and GPIO 28 is [tempPin] in the default mapping. *)
Lemma rpipico_default_by_index :
  exists m, boardsPresetsMap !! "rpipico" = Some m
            /\ m !! 0%nat = Some btnGunA
            /\ m !! 28%nat = Some tempPin.
Proof.
  unfold boardsPresetsMap. rewrite lookup_unordered_map_of.
  eexists. split; [reflexivity|]. split; reflexivity.
Qed.

(** Every entry of every default and alternate mapping is a value of
    [boardInputs_e] below the count marker. *)
Lemma mappings_hold_pin_functions :
  (forall board m (i : nat) f,
     boardsPresetsMap !! board = Some m -> m !! i = Some f ->
     unavailable <= f < boardInputsCount)
  /\ (forall board alt (i : nat) f,
        In (board, alt) boardsAltPresets -> pin alt !! i = Some f ->
        unavailable <= f < boardInputsCount).
Proof.
  assert (Hvalid : forall f, valid_function f = true ->
                             unavailable <= f < boardInputsCount).
  { intros f Hf. unfold valid_function in Hf.
    apply andb_true_iff in Hf as [Hlo Hhi].
    apply Z.leb_le in Hlo. apply Z.ltb_lt in Hhi. lia. }
  split.
  - intros board m i f Hm Hf. apply Hvalid.
    apply (forallb_lookup valid_function m i f); [|exact Hf].
    apply (unordered_map_of_check (forallb valid_function)
             boardsPresetsMap_init) with (key := board); [|exact Hm].
    vm_compute. reflexivity.
  - intros board alt i f Hin Hf. apply Hvalid.
    apply (forallb_lookup valid_function (pin alt) i f); [|exact Hf].
    assert (Hall : forallb (fun kv => forallb valid_function (pin (snd kv)))
                     boardsAltPresets = true)
      by (vm_compute; reflexivity).
    rewrite List.forallb_forall in Hall. exact (Hall (board, alt) Hin).
Qed.

Lemma mappings_hold_pin_functions_witness :
  unavailable <= tempPin < boardInputsCount.
Proof.
  apply (proj1 mappings_hold_pin_functions "rpipico"
           [ btnGunA;       btnGunB;        btnGunC;        btnStart;       btnSelect;
             btnHome;       btnGunUp;       btnGunDown;     btnGunLeft;     btnGunRight;
             ledR;          ledG;           ledB;           btnPump;        btnPedal;
             btnTrigger;    solenoidPin;    rumblePin;      periphSDA;      periphSCL;
             camSDA;        camSCL;         btnUnmapped;    unavailable;    unavailable;
             unavailable;   btnUnmapped;    btnUnmapped;    tempPin;        unavailable ]
           28%nat).
  - unfold boardsPresetsMap. rewrite lookup_unordered_map_of. reflexivity.
  - reflexivity.
Defined.

(** The alternates of each board, by label and in insertion order: two for
    the Pico, two for the ItsyBitsy, none for any other board; the labels of
    one board differ. *)
Lemma lookupAlternates_labels (board : string) :
  map name (lookupAlternates board) =
    (if String.eqb board "rpipico" then ["Test"; "Test 2"]
     else if String.eqb board "adafruitItsyRP2040" then ["SAMCO 2.0"; "SAMCO 1.1"]
     else [])
  /\ List.NoDup (map name (lookupAlternates board)).
Proof.
  assert (Heq : map name (lookupAlternates board) =
    (if String.eqb board "rpipico" then ["Test"; "Test 2"]
     else if String.eqb board "adafruitItsyRP2040" then ["SAMCO 2.0"; "SAMCO 1.1"]
     else [])).
  { destruct (String.eqb_spec board "rpipico") as [->|Hpico]; [reflexivity|].
    destruct (String.eqb_spec board "adafruitItsyRP2040") as [->|Hitsy];
      [reflexivity|].
    assert (E1 : String.eqb "rpipico" board = false)
      by (apply String.eqb_neq; congruence).
    assert (E2 : String.eqb "adafruitItsyRP2040" board = false)
      by (apply String.eqb_neq; congruence).
    unfold lookupAlternates, boardsAltPresets.
    cbn [List.filter fst]. rewrite E1, E2. reflexivity. }
  split; [exact Heq|]. rewrite Heq.
  destruct (String.eqb board "rpipico");
    [|destruct (String.eqb board "adafruitItsyRP2040")];
    repeat constructor; simpl; intuition discriminate.
Qed.

(** No board is listed twice in an initialiser list, so each map holds
    every pair of its list. *)
Lemma registry_keys_distinct :
  List.NoDup (init_keys boardsPresetsMap_init)
  /\ List.NoDup (init_keys boardsBoxPositions_stored)
  /\ List.NoDup (init_keys boardNames_init)
  /\ init_keys boardsBoxPositions_stored = init_keys boardNames_init
  /\ init_keys boardsBoxPositions_stored = (supported_boards ++ ["generic"])%list.
Proof.
  assert (Hnd : List.NoDup (supported_boards ++ ["generic"])%list).
  { apply NoDup_ListNoDup.
    apply (bool_decide_unpack _). vm_compute. reflexivity. }
  split; [|split; [|split; [|split]]].
  - change (init_keys boardsPresetsMap_init) with supported_boards.
    apply (List.NoDup_app_remove_r _ _ Hnd).
  - exact Hnd.
  - exact Hnd.
  - reflexivity.
  - reflexivity.
Qed.

(** ** The board identifier of a build *)

(** Whatever the toolchain defines, the identifier is one of eight
    tokens. *)
Lemma OPENFIRE_BOARD_tokens (defined : string -> bool) :
  In (OPENFIRE_BOARD defined)
     (supported_boards ++ ["vccgndYD"; "generic"])%list.
Proof.
  unfold OPENFIRE_BOARD, OPENFIRE_BOARD_chain, ifdef_chain.
  repeat match goal with
         | |- context [if defined ?m then _ else _] => destruct (defined m)
         end; simpl; tauto.
Qed.

(** The tables cover every identifier a build can have except the one of
    the YD-RP2040: [boardNames] and [boardsBoxPositions] have an entry for
    [OPENFIRE_BOARD] exactly when it is not [vccgndYD], and
    [boardsPresetsMap] has one exactly when it is neither [vccgndYD] nor
    [generic]. *)
Lemma OPENFIRE_BOARD_in_tables (defined : string -> bool) :
  (is_Some (boardNames !! OPENFIRE_BOARD defined)
     <-> OPENFIRE_BOARD defined <> "vccgndYD")
  /\ (is_Some (boardsBoxPositions !! OPENFIRE_BOARD defined)
        <-> OPENFIRE_BOARD defined <> "vccgndYD")
  /\ (is_Some (boardsPresetsMap !! OPENFIRE_BOARD defined)
        <-> OPENFIRE_BOARD defined <> "vccgndYD"
            /\ OPENFIRE_BOARD defined <> "generic").
Proof.
  unfold boardNames, boardsBoxPositions, boardsPresetsMap.
  rewrite !lookup_unordered_map_of.
  pose proof (OPENFIRE_BOARD_tokens defined) as Htoken.
  simpl in Htoken.
  repeat destruct Htoken as [<-|Htoken]; try contradiction;
    (split; [|split]); split;
    try (intros _; try split; discriminate);
    try (intros _; now eexists);
    try (intros [? [=]]);
    try (intros [? ?]; congruence);
    try (intros Hne; now contradiction Hne).
Qed.

(** Which builds get which identifier: [generic] exactly when none of the
    seven macros is defined; [vccgndYD] exactly when [ARDUINO_YD_RP2040] is
    defined and none of the four macros tested before it; and a build that
    defines one macro of the chain only gets the token of that branch. *)
Lemma OPENFIRE_BOARD_precedence (defined : string -> bool) :
  (OPENFIRE_BOARD defined = "generic"
     <-> forall macro, In macro (map fst OPENFIRE_BOARD_chain) ->
                       defined macro = false)
  /\ (OPENFIRE_BOARD defined = "vccgndYD"
        <-> defined "ARDUINO_YD_RP2040" = true
            /\ defined "ARDUINO_ADAFRUIT_ITSYBITSY_RP2040" = false
            /\ defined "ARDUINO_ADAFRUIT_KB2040_RP2040" = false
            /\ defined "ARDUINO_NANO_RP2040_CONNECT" = false
            /\ defined "ARDUINO_WAVESHARE_RP2040_ZERO" = false)
  /\ (forall macro token,
        In (macro, token) OPENFIRE_BOARD_chain ->
        OPENFIRE_BOARD (String.eqb macro) = token).
Proof.
  split; [|split].
  - unfold OPENFIRE_BOARD, OPENFIRE_BOARD_chain, ifdef_chain. split.
    + intros HB macro Hin. simpl in Hin.
      repeat match type of HB with
             | context [if defined ?m then _ else _] =>
                 destruct (defined m) eqn:?; [discriminate HB|]
             end.
      repeat destruct Hin as [<-|Hin]; try assumption. contradiction.
    + intros Hnone.
      rewrite !Hnone by (simpl; tauto). reflexivity.
  - unfold OPENFIRE_BOARD, OPENFIRE_BOARD_chain, ifdef_chain. split.
    + intros HB.
      repeat match type of HB with
             | context [if defined ?m then _ else _] =>
                 destruct (defined m) eqn:?; try discriminate HB
             end.
      tauto.
    + intros (Hyd & H1 & H2 & H3 & H4).
      rewrite H1, H2, H3, H4, Hyd. reflexivity.
  - intros macro token Hin. simpl in Hin.
    repeat destruct Hin as [[= <- <-]|Hin]; try reflexivity. contradiction.
Qed.

(** A build for the YD-RP2040 alone: its identifier has no display
    name. *)
Lemma OPENFIRE_BOARD_in_tables_witness :
  boardNames !! OPENFIRE_BOARD (String.eqb "ARDUINO_YD_RP2040") = None.
Proof.
  destruct (boardNames !! OPENFIRE_BOARD (String.eqb "ARDUINO_YD_RP2040"))
    as [shown|] eqn:Hname; [|reflexivity].
  exfalso.
  apply (proj1 (proj1 (OPENFIRE_BOARD_in_tables
                         (String.eqb "ARDUINO_YD_RP2040")))).
  - rewrite Hname. now eexists.
  - reflexivity.
Defined.

(** The branch of [ARDUINO_YD_RP2040], when only that macro is defined. *)
Lemma OPENFIRE_BOARD_precedence_witness :
  OPENFIRE_BOARD (String.eqb "ARDUINO_YD_RP2040") = "vccgndYD".
Proof.
  apply (proj2 (proj2 (OPENFIRE_BOARD_precedence (fun _ => false)))
           "ARDUINO_YD_RP2040" "vccgndYD").
  unfold OPENFIRE_BOARD_chain. do 4 right. left. reflexivity.
Defined.

(** ** Appending to an enumeration *)

Section EnumEdits.
Variable marker : string.

Lemma enum_values_from_explicit (k k' : Z) (d : enum_decl) :
  starts_explicit d = true -> enum_values_from k d = enum_values_from k' d.
Proof.
  destruct d as [|[n [i|]] rest]; simpl; intros H;
    [reflexivity|reflexivity|discriminate].
Qed.

(** The numbering of a declaration that has a line for [marker], split at
    that line. *)
Lemma enum_values_from_split (k : Z) (d : enum_decl) (m : string) (post : enum_decl) :
  decl_from marker d = (m, None) :: post ->
  let n := enum_next k (decl_before marker d) in
  m = marker
  /\ enum_values_from k d =
       (enum_values_from k (decl_before marker d)
          ++ (marker, n) :: enum_values_from (n + 1) post)%list
  /\ enum_before marker (enum_values_from k d) =
       enum_values_from k (decl_before marker d)
  /\ enum_after marker (enum_values_from k d) = enum_values_from (n + 1) post
  /\ snd <$> List.find (fun p => String.eqb (fst p) marker)
               (enum_values_from k d) = Some n.
Proof.
  revert k. induction d as [|[c init] rest IH]; intros k Hfrom; [discriminate|].
  simpl in Hfrom |- *.
  destruct (String.eqb_spec c marker) as [->|Hne].
  - injection Hfrom as Hm Hinit Hrest. subst m init post. simpl.
    repeat split; reflexivity.
  - simpl. destruct (String.eqb_spec c marker) as [|_]; [contradiction|].
    destruct (IH (match init with Some i => i | None => k end + 1) Hfrom)
      as (Hm & Hvals & Hbefore & Hafter & Hfind).
    repeat split.
    + exact Hm.
    + f_equal. exact Hvals.
    + f_equal. exact Hbefore.
    + exact Hafter.
    + exact Hfind.
Qed.

(** The numbering after a new line above the line of [marker]. *)
Lemma enum_values_from_insert (k : Z) (d : enum_decl) (new : string) (post : enum_decl) :
  decl_from marker d = (marker, None) :: post ->
  let n := enum_next k (decl_before marker d) in
  enum_values_from k (insert_above marker new d) =
    (enum_values_from k (decl_before marker d)
       ++ (new, n) :: (marker, n + 1) :: enum_values_from (n + 1 + 1) post)%list.
Proof.
  unfold insert_above. intros ->.
  generalize (decl_before marker d). clear d.
  intros pre. revert k. induction pre as [|[c init] pre IH]; intros k; simpl.
  - reflexivity.
  - f_equal. apply IH.
Qed.

End EnumEdits.

(** Appending above the count line keeps the catalog compatible.  When
    [marker] is a count line of [d] with value [n], inserting a new
    enumerator on the line above it gives the new enumerator the value [n]
    and the marker [n + 1], and leaves the value of every other enumerator
    as it was.  The six count lines of the header are of this kind. *)
Lemma insert_above_count_line :
  (forall (marker new : string) (d : enum_decl) (n : Z),
     count_line marker d = true ->
     enum_value d marker = Some n ->
     enum_values (insert_above marker new d) =
       (enum_before marker (enum_values d)
          ++ (new, n) :: (marker, n + 1) :: enum_after marker (enum_values d))%list
     /\ enum_values d =
          (enum_before marker (enum_values d)
             ++ (marker, n) :: enum_after marker (enum_values d))%list
     /\ (forall c v, In (c, v) (enum_values d) -> c <> marker ->
           In (c, v) (enum_values (insert_above marker new d))))
  /\ count_line "boardInputsCount" boardInputs_e = true
  /\ count_line "boolTypesCount" boolTypes_e = true
  /\ count_line "settingsTypesCount" settingsTypes_e = true
  /\ count_line "layoutTypes" layoutTypes_e = true
  /\ count_line "i2cDevicesCount" i2cPeriphTypes_e = true
  /\ count_line "profDataTypes" profSyncTypes_e = true.
Proof.
  split; [|repeat split; reflexivity].
  intros marker new d n Hline Hn.
  unfold count_line in Hline.
  destruct (decl_from marker d) as [|[m [i|]] post] eqn:Hfrom;
    try discriminate.
  destruct (enum_values_from_split marker 0 d m post Hfrom)
    as (-> & Hvals & Hbefore & Hafter & Hfind).
  unfold enum_value, enum_values in *.
  rewrite Hfind in Hn. injection Hn as Hn.
  assert (Hins := enum_values_from_insert marker 0 d new post Hfrom).
  simpl in Hins. rewrite Hn in *.
  rewrite (enum_values_from_explicit (n + 1 + 1) (n + 1) post Hline) in Hins.
  rewrite Hbefore, Hafter.
  split; [exact Hins|split; [exact Hvals|]].
  intros c v Hin Hc. rewrite Hins. rewrite Hvals in Hin.
  apply List.in_app_iff in Hin as [Hin|[Hin|Hin]].
  - apply List.in_app_iff. left. exact Hin.
  - congruence.
  - apply List.in_app_iff. right. right. right. exact Hin.
Qed.

(** A new pin function above [boardInputsCount] takes the value 32. *)
Lemma insert_above_count_line_witness :
  enum_value (insert_above "boardInputsCount" "btnNew" boardInputs_e) "btnNew"
    = Some 32
  /\ In ("wiiClockGen", 31)
       (enum_values (insert_above "boardInputsCount" "btnNew" boardInputs_e)).
Proof.
  assert (Hline : count_line "boardInputsCount" boardInputs_e = true)
    by reflexivity.
  assert (Hn : enum_value boardInputs_e "boardInputsCount" = Some 32)
    by reflexivity.
  destruct (proj1 insert_above_count_line
              "boardInputsCount" "btnNew" boardInputs_e 32 Hline Hn)
    as (Hins & _ & Hkeep).
  split.
  - unfold enum_value. rewrite Hins. reflexivity.
  - apply Hkeep; [|discriminate].
    vm_compute. do 33 right. left. reflexivity.
Defined.

(** ** Where the pins are drawn *)

Lemma existsb_eqb_lookup (p : Z) (l : list Z) (j : nat) :
  existsb (Z.eqb p) l = false -> l !! j <> Some p.
Proof.
  revert j. induction l as [|q l IH]; intros j Hex Hj.
  - destruct j; discriminate.
  - simpl in Hex. apply orb_false_iff in Hex as [Hq Hex].
    destruct j as [|j]; simpl in Hj.
    + injection Hj as ->. rewrite Z.eqb_refl in Hq. discriminate.
    + exact (IH j Hex Hj).
Qed.

Lemma positions_distinct_lookup (l : list Z) :
  positions_distinct l = true ->
  forall (i j : nat) (p : Z),
    l !! i = Some p -> l !! j = Some p -> p <> posNothing -> i = j.
Proof.
  induction l as [|q l IH]; intros Hl i j p Hi Hj Hp.
  - destruct i; discriminate.
  - simpl in Hl. apply andb_true_iff in Hl as [Hq Hl].
    assert (Hfresh : q = p -> existsb (Z.eqb p) l = false).
    { intros ->. apply orb_true_iff in Hq as [Hq|Hq].
      - apply Z.eqb_eq in Hq. contradiction.
      - now apply negb_true_iff in Hq. }
    destruct i as [|i], j as [|j]; simpl in Hi, Hj.
    + reflexivity.
    + injection Hi as Hi.
      exfalso. exact (existsb_eqb_lookup p l j (Hfresh Hi) Hj).
    + injection Hj as Hj.
      exfalso. exact (existsb_eqb_lookup p l i (Hfresh Hj) Hi).
    + f_equal. exact (IH Hl i j p Hi Hj Hp).
Qed.

Lemma slot_in_grid_sound (p : Z) :
  slot_in_grid p = true ->
  p <> posNothing ->
  exists r, r <> Nothing /\ 1 <= p - region_value r <= 20.
Proof.
  unfold slot_in_grid. intros Hp Hne.
  apply orb_true_iff in Hp as [Hp|Hp].
  - apply Z.eqb_eq in Hp. contradiction.
  - apply List.existsb_exists in Hp as (r & Hr & Hslot).
    apply andb_true_iff in Hslot as [Hlo Hhi].
    apply Z.leb_le in Hlo. apply Z.leb_le in Hhi.
    exists r. split; [|lia].
    simpl in Hr. intuition (subst; discriminate).
Qed.

(** A pin that a layout draws has a place of its own: its packed value is
    a slot from 1 to 20 of the left, right or middle grid, and no other
    GPIO of the board has the same value. *)
Lemma drawn_pins_have_own_slot
    (board : string) (l : list Z) (i : nat) (p : Z) :
  boardsBoxPositions !! board = Some l ->
  l !! i = Some p ->
  p <> posNothing ->
  (exists r, r <> Nothing /\ 1 <= p - region_value r <= 20)
  /\ (forall j : nat, l !! j = Some p -> j = i).
Proof.
  intros Hl Hi Hp. split.
  - apply slot_in_grid_sound; [|exact Hp].
    apply (forallb_lookup slot_in_grid l i p); [|exact Hi].
    apply (unordered_map_of_check (forallb slot_in_grid)
             boardsBoxPositions_stored) with (key := board); [|exact Hl].
    vm_compute. reflexivity.
  - intros j Hj. symmetry.
    apply (positions_distinct_lookup l) with (p := p); try assumption.
    apply (unordered_map_of_check positions_distinct
             boardsBoxPositions_stored) with (key := board); [|exact Hl].
    vm_compute. reflexivity.
Qed.

(** GPIO 4 of the ItsyBitsy, drawn in slot 2 of the middle grid. *)
Lemma drawn_pins_have_own_slot_witness :
  (exists r, r <> Nothing /\ 1 <= 2050 - region_value r <= 20)
  /\ (forall j : nat,
        map to_unsigned
          [ 13+posRight;   14+posRight;    12+posRight;    11+posRight;    2+posMiddle;
            1+posMiddle;   9+posRight;     8+posRight;     7+posRight;     6+posRight;
            5+posRight;    4+posRight;     14+posLeft;     posNothing;     posNothing;
            posNothing;    posNothing;     posNothing;     11+posLeft;     12+posLeft;
            13+posLeft;    posNothing;     posNothing;     posNothing;     9+posLeft;
            10+posLeft;    5+posLeft;      6+posLeft;      7+posLeft;      8+posLeft ]
          !! j = Some 2050 -> j = 4%nat).
Proof.
  apply (drawn_pins_have_own_slot "adafruitItsyRP2040").
  - unfold boardsBoxPositions. rewrite lookup_unordered_map_of. reflexivity.
  - reflexivity.
  - unfold posNothing. lia.
Defined.

Lemma functions_drawn_lookup (m l : list Z) :
  functions_drawn m l = true ->
  forall (i : nat) (f : Z),
    m !! i = Some f -> 0 <= f ->
    exists p, l !! i = Some p /\ p <> posNothing.
Proof.
  revert l. induction m as [|g m IH]; intros l Hml i f Hi Hf.
  - destruct i; discriminate.
  - destruct l as [|q l]; simpl in Hml; [discriminate|].
    apply andb_true_iff in Hml as [Hhead Hrest].
    destruct i as [|i]; simpl in Hi.
    + injection Hi as ->. exists q. split; [reflexivity|].
      apply orb_true_iff in Hhead as [Hg|Hq].
      * unfold is_function in Hg. apply negb_true_iff, Z.leb_gt in Hg. lia.
      * apply negb_true_iff, Z.eqb_neq in Hq. exact Hq.
    + exact (IH l Hrest i f Hi Hf).
Qed.

(** Every GPIO that a preset gives a concrete function is drawn: in the
    default mapping of a board and in each of its alternates, an entry of 0
    or more stands at an index whose layout entry is not [posNothing]. *)
Lemma functions_are_drawn :
  (forall board m l (i : nat) f,
     boardsPresetsMap !! board = Some m ->
     boardsBoxPositions !! board = Some l ->
     m !! i = Some f -> 0 <= f ->
     exists p, l !! i = Some p /\ p <> posNothing)
  /\ (forall board alt l (i : nat) f,
        In (board, alt) boardsAltPresets ->
        boardsBoxPositions !! board = Some l ->
        pin alt !! i = Some f -> 0 <= f ->
        exists p, l !! i = Some p /\ p <> posNothing).
Proof.
  assert (Hall : forall board m l,
            In (board, m) all_presets ->
            boardsBoxPositions !! board = Some l ->
            functions_drawn m l = true).
  { intros board m l Hin Hl.
    assert (Hreg : registry_functions_drawn = true) by (vm_compute; reflexivity).
    unfold registry_functions_drawn in Hreg.
    rewrite List.forallb_forall in Hreg.
    specialize (Hreg (board, m) Hin). simpl in Hreg.
    unfold boardsBoxPositions in Hl. rewrite lookup_unordered_map_of in Hl.
    rewrite Hl in Hreg. exact Hreg. }
  split.
  - intros board m l i f Hm Hl Hi Hf.
    apply (functions_drawn_lookup m l) with (f := f); try assumption.
    apply (Hall board); [|exact Hl].
    apply List.in_app_iff. left.
    exact (lookup_unordered_map_of_In _ _ _ Hm).
  - intros board alt l i f Hin Hl Hi Hf.
    apply (functions_drawn_lookup (pin alt) l) with (f := f); try assumption.
    apply (Hall board); [|exact Hl].
    apply List.in_app_iff. right.
    apply List.in_map_iff. exists (board, alt). split; [reflexivity|exact Hin].
Qed.

(** The theorem at GPIO 28 of the KB2040, the trigger. *)
Lemma functions_are_drawn_witness :
  exists p,
    map to_unsigned
      [ 3+posLeft;     4+posLeft;      7+posLeft;      8+posLeft;      9+posLeft;
        10+posLeft;    11+posLeft;     12+posLeft;     13+posLeft;     14+posLeft;
        14+posRight;   posNothing;     posNothing;     posNothing;     posNothing;
        posNothing;    posNothing;     posNothing;     11+posRight;    13+posRight;
        12+posRight;   posNothing;     posNothing;     posNothing;     posNothing;
        posNothing;    10+posRight;    9+posRight;     8+posRight;     7+posRight ]
      !! 28%nat = Some p
    /\ p <> posNothing.
Proof.
  apply (proj1 functions_are_drawn "adafruitKB2040"
           [ btnUnmapped;   btnUnmapped;    camSDA;         camSCL;         btnGunB;
             rumblePin;     btnGunC;        solenoidPin;    btnSelect;      btnStart;
             btnGunRight;   unavailable;    unavailable;    unavailable;    unavailable;
             unavailable;   unavailable;    unavailable;    btnGunUp;       btnGunLeft;
             btnGunDown;    unavailable;    unavailable;    unavailable;    unavailable;
             unavailable;   tempPin;        btnHome;        btnTrigger;     btnGunA ]
           _ 28%nat btnTrigger).
  - unfold boardsPresetsMap. rewrite lookup_unordered_map_of. reflexivity.
  - unfold boardsBoxPositions. rewrite lookup_unordered_map_of. reflexivity.
  - reflexivity.
  - unfold btnTrigger. lia.
Defined.

Lemma same_unexposed_lookup (m a : list Z) :
  same_unexposed m a = true ->
  forall i : nat, m !! i = Some unavailable <-> a !! i = Some unavailable.
Proof.
  revert a. induction m as [|f m IH]; intros [|g a] Hma i;
    try discriminate.
  - destruct i; split; discriminate.
  - simpl in Hma. apply andb_true_iff in Hma as [Hhead Hrest].
    destruct i as [|i]; simpl.
    + apply Bool.eqb_prop in Hhead.
      split; intros [= ->].
      * rewrite Z.eqb_refl in Hhead. symmetry in Hhead.
        apply Z.eqb_eq in Hhead. now subst g.
      * rewrite Z.eqb_refl in Hhead.
        apply Z.eqb_eq in Hhead. now subst f.
    + exact (IH a Hrest i).
Qed.

(** An alternate preset is for a board that has a default mapping, and
    it marks exactly the GPIOs [unavailable] that the default mapping of
    its board marks. *)
Lemma alternates_keep_unexposed_pins
    (board : string) (alt : boardAltPresetsMap_t) :
  In (board, alt) boardsAltPresets ->
  exists m,
    boardsPresetsMap !! board = Some m
    /\ forall i : nat,
         m !! i = Some unavailable <-> pin alt !! i = Some unavailable.
Proof.
  intros Hin.
  assert (Hreg : registry_same_unexposed = true) by (vm_compute; reflexivity).
  unfold registry_same_unexposed in Hreg.
  rewrite List.forallb_forall in Hreg.
  specialize (Hreg (board, alt) Hin). simpl in Hreg.
  destruct (init_find boardsPresetsMap_init board) as [m|] eqn:Hm;
    [|discriminate].
  exists m. split.
  - unfold boardsPresetsMap. rewrite lookup_unordered_map_of. exact Hm.
  - exact (same_unexposed_lookup m (pin alt) Hreg).
Qed.

(** The theorem at the alternate [SAMCO 1.1] of the ItsyBitsy. *)
Lemma alternates_keep_unexposed_pins_witness :
  exists m,
    boardsPresetsMap !! "adafruitItsyRP2040" = Some m
    /\ forall i : nat,
         m !! i = Some unavailable
         <-> [ btnUnmapped;   btnUnmapped;    camSDA;         camSCL;         btnUnmapped;
               btnUnmapped;   btnGunA;        btnGunB;        rumblePin;      btnHome;
               btnTrigger;    btnUnmapped;    btnUnmapped;    unavailable;    unavailable;
               unavailable;   unavailable;    unavailable;    btnUnmapped;    btnUnmapped;
               btnUnmapped;   unavailable;    unavailable;    unavailable;    btnUnmapped;
               btnUnmapped;   btnUnmapped;    btnPedal;       btnUnmapped;    btnUnmapped ]
             !! i = Some unavailable.
Proof.
  apply (alternates_keep_unexposed_pins "adafruitItsyRP2040"
           (AltPreset "SAMCO 1.1"
              [ btnUnmapped;   btnUnmapped;    camSDA;         camSCL;         btnUnmapped;
                btnUnmapped;   btnGunA;        btnGunB;        rumblePin;      btnHome;
                btnTrigger;    btnUnmapped;    btnUnmapped;    unavailable;    unavailable;
                unavailable;   unavailable;    unavailable;    btnUnmapped;    btnUnmapped;
                btnUnmapped;   unavailable;    unavailable;    unavailable;    btnUnmapped;
                btnUnmapped;   btnUnmapped;    btnPedal;       btnUnmapped;    btnUnmapped ])).
  unfold boardsAltPresets. do 3 right. left. reflexivity.
Defined.

(** ** What the presets provide *)

Lemma all_presets_In :
  (forall board m,
     boardsPresetsMap !! board = Some m -> In (board, m) all_presets)
  /\ (forall board alt,
        In (board, alt) boardsAltPresets -> In (board, pin alt) all_presets).
Proof.
  unfold all_presets. split.
  - intros board m Hm. apply List.in_app_iff. left.
    exact (lookup_unordered_map_of_In _ _ _ Hm).
  - intros board alt Hin. apply List.in_app_iff. right.
    apply List.in_map_iff. exists (board, alt). split; [reflexivity|exact Hin].
Qed.

(** Every default mapping provides the trigger, the buttons A, B and C
    and both lines of the camera bus, each on exactly one GPIO. *)
Lemma defaults_have_essentials (board : string) (m : list Z) (f : Z) :
  boardsPresetsMap !! board = Some m ->
  In f essential_functions ->
  owners f m = 1%nat.
Proof.
  intros Hm Hf.
  assert (Hess : has_essentials m = true).
  { apply (unordered_map_of_check has_essentials boardsPresetsMap_init)
      with (key := board); [|exact Hm].
    vm_compute. reflexivity. }
  unfold has_essentials in Hess. rewrite List.forallb_forall in Hess.
  apply Nat.eqb_eq. exact (Hess f Hf).
Qed.

(** The theorem at the Arduino Nano and the camera clock line. *)
Lemma defaults_have_essentials_witness :
  owners camSCL
    [ btnTrigger;    btnPedal;       unavailable;    unavailable;    btnGunA;
      btnGunC;       btnUnmapped;    btnGunB;        unavailable;    unavailable;
      unavailable;   unavailable;    camSDA;         camSCL;         unavailable;
      btnUnmapped;   btnUnmapped;    btnUnmapped;    btnUnmapped;    btnUnmapped;
      btnUnmapped;   btnUnmapped;    unavailable;    unavailable;    unavailable;
      btnUnmapped;   btnUnmapped;    btnUnmapped;    tempPin;        btnUnmapped ]
  = 1%nat.
Proof.
  apply (defaults_have_essentials "arduinoNanoRP2040").
  - unfold boardsPresetsMap. rewrite lookup_unordered_map_of. reflexivity.
  - unfold essential_functions. do 5 right. left. reflexivity.
Defined.

Lemma bus_adjacent_lookup (sda scl : Z) (k : nat) (m : list Z) :
  bus_adjacent sda scl k m = true ->
  forall i : nat,
    m !! i = Some sda ->
    Nat.even (k + i) = true /\ m !! S i = Some scl.
Proof.
  revert k. induction m as [|f m IH]; intros k Hm i Hi.
  - destruct i; discriminate.
  - simpl in Hm. apply andb_true_iff in Hm as [Hhead Hrest].
    destruct i as [|i]; simpl in Hi.
    + injection Hi as ->. rewrite Z.eqb_refl in Hhead.
      apply andb_true_iff in Hhead as [Heven Hnext].
      rewrite Nat.add_0_r. split; [exact Heven|].
      destruct m as [|g m]; [discriminate|].
      apply Z.eqb_eq in Hnext. now subst g.
    + destruct (IH (S k) Hrest i Hi) as [Heven Hnext].
      rewrite Nat.add_succ_r. split; [exact Heven|exact Hnext].
Qed.

(** In every preset, default or alternate, a bus is on two adjacent
    GPIOs: where the entry is [camSDA] the index is even and the next entry
    is [camSCL], and likewise for [periphSDA] and [periphSCL]. *)
Lemma bus_lines_adjacent (board : string) (m : list Z) (i : nat) :
  In (board, m) all_presets ->
  (m !! i = Some camSDA ->
     Nat.even i = true /\ m !! S i = Some camSCL)
  /\ (m !! i = Some periphSDA ->
        Nat.even i = true /\ m !! S i = Some periphSCL).
Proof.
  intros Hin.
  assert (Hall : forallb (fun kv => bus_lines_ok (snd kv)) all_presets = true)
    by (vm_compute; reflexivity).
  rewrite List.forallb_forall in Hall. specialize (Hall (board, m) Hin).
  simpl in Hall. unfold bus_lines_ok in Hall.
  apply andb_true_iff in Hall as [Hcam Hperiph].
  split; intros Hi.
  - exact (bus_adjacent_lookup camSDA camSCL 0 m Hcam i Hi).
  - exact (bus_adjacent_lookup periphSDA periphSCL 0 m Hperiph i Hi).
Qed.

(** The theorem at the default mapping of the Pico, whose peripheral bus
    is on GPIO 18 and 19. *)
Lemma bus_lines_adjacent_witness :
  Nat.even 18 = true
  /\ [ btnGunA;       btnGunB;        btnGunC;        btnStart;       btnSelect;
       btnHome;       btnGunUp;       btnGunDown;     btnGunLeft;     btnGunRight;
       ledR;          ledG;           ledB;           btnPump;        btnPedal;
       btnTrigger;    solenoidPin;    rumblePin;      periphSDA;      periphSCL;
       camSDA;        camSCL;         btnUnmapped;    unavailable;    unavailable;
       unavailable;   btnUnmapped;    btnUnmapped;    tempPin;        unavailable ]
     !! 19%nat = Some periphSCL.
Proof.
  apply (bus_lines_adjacent "rpipico").
  - apply (proj1 all_presets_In).
    unfold boardsPresetsMap. rewrite lookup_unordered_map_of. reflexivity.
  - reflexivity.
Defined.

(** ** The label table, read both ways *)

(** [pinLabel] has a label exactly for the functions from [btnUnmapped]
    up to, not including, [boardInputsCount], and no two functions share a
    label. *)
Lemma pinLabel_domain_injective :
  (forall f, is_Some (pinLabel f) <-> btnUnmapped <= f < boardInputsCount)
  /\ (forall f g s, pinLabel f = Some s -> pinLabel g = Some s -> f = g).
Proof.
  assert (Hlen : length valuesNameList = 33%nat) by reflexivity.
  assert (Hat : forall f, pinLabel f =
            if f + 1 <? 0 then None else valuesNameList !! Z.to_nat (f + 1))
    by reflexivity.
  assert (Hdom : forall f, is_Some (pinLabel f) -> btnUnmapped <= f < boardInputsCount).
  { intros f Hf. rewrite Hat in Hf.
    unfold btnUnmapped, boardInputsCount.
    destruct (Z.ltb_spec (f + 1) 0) as [Hneg|Hpos].
    - destruct Hf as [? [=]].
    - apply lookup_lt_is_Some_1 in Hf. rewrite Hlen in Hf. lia. }
  split.
  - intros f. split; [apply Hdom|].
    unfold btnUnmapped, boardInputsCount. intros Hf. rewrite Hat.
    destruct (Z.ltb_spec (f + 1) 0) as [Hneg|_]; [lia|].
    apply lookup_lt_is_Some_2. rewrite Hlen. lia.
  - intros f g s Hf Hg.
    assert (Hnd : NoDup valuesNameList).
    { apply (bool_decide_unpack _). vm_compute. reflexivity. }
    pose proof (Hdom f (ex_intro _ s Hf)) as Hfd.
    pose proof (Hdom g (ex_intro _ s Hg)) as Hgd.
    unfold btnUnmapped, boardInputsCount in Hfd, Hgd.
    rewrite Hat in Hf, Hg.
    destruct (Z.ltb_spec (f + 1) 0) as [?|_]; [lia|].
    destruct (Z.ltb_spec (g + 1) 0) as [?|_]; [lia|].
    pose proof (proj1 (NoDup_alt valuesNameList) Hnd _ _ s Hf Hg) as Heq.
    lia.
Qed.

(** The theorem at the last function of the catalog. *)
Lemma pinLabel_domain_injective_witness :
  btnUnmapped <= wiiClockGen < boardInputsCount
  /\ is_Some (pinLabel wiiClockGen).
Proof.
  assert (H : btnUnmapped <= wiiClockGen < boardInputsCount)
    by (unfold btnUnmapped, wiiClockGen, boardInputsCount; lia).
  split; [exact H|].
  exact (proj2 (proj1 pinLabel_domain_injective wiiClockGen) H).
Defined.

(** ** The serial codes on the wire *)

(** Every serial command code is a byte from 1 to 254.  The codes of the
    docking, mode-toggle and test-signal sections are control characters
    (at most 32); the codes of every other section (errors and status from
    the board, push and grab of settings, and the four codes at the end)
    are 128 or more. *)
Lemma serial_codes_byte_ranges (cmd : string) (v : Z) :
  In (cmd, v) (enum_values serialCmdTypes_e) ->
  1 <= v <= 254
  /\ exists g, declared_group cmd = Some g
               /\ (low_section g = true -> v <= 32)
               /\ (low_section g = false -> 128 <= v).
Proof.
  intros Hin.
  assert (Hall : forallb code_in_range (enum_values serialCmdTypes_e) = true)
    by (vm_compute; reflexivity).
  rewrite List.forallb_forall in Hall. specialize (Hall (cmd, v) Hin).
  unfold code_in_range in Hall; simpl in Hall.
  apply andb_true_iff in Hall as [Hbyte Hside].
  apply andb_true_iff in Hbyte as [Hlo Hhi].
  apply Z.leb_le in Hlo. apply Z.leb_le in Hhi.
  split; [lia|].
  destruct (declared_group cmd) as [g|]; [|discriminate].
  exists g. split; [reflexivity|].
  destruct (low_section g).
  - apply Z.leb_le in Hside. split; [intros _; exact Hside|discriminate].
  - apply Z.leb_le in Hside. split; [discriminate|intros _; exact Hside].
Qed.

(** The theorem at [sCommitPins], a code the app sends that is above the
    ASCII range. *)
Lemma serial_codes_byte_ranges_witness :
  1 <= 172 <= 254
  /\ exists g, declared_group "sCommitPins" = Some g
               /\ (low_section g = true -> 172 <= 32)
               /\ (low_section g = false -> 128 <= 172).
Proof.
  apply (serial_codes_byte_ranges "sCommitPins" 172).
  vm_compute. do 24 right. left. reflexivity.
Defined.

(** ** The enumerations without a count of their own *)

(** [layoutTypes_e] counts from zero to its marker [layoutTypes] = 2 and
    [usbIdSyncTypes_e] numbers its two fields 0 and 1.  [i2cPeriphTypes_e]
    does not count to [i2cDevicesCount]: it numbers the device types and
    then, from zero again, the setting types of the OLED, so [i2cOLED] and
    [oledAltAddr] are both 0 and [i2cDevicesCount] and [oledSettingsTypes]
    both 1.  Its flag [i2cDevicesEnabled] has the value 0xFA of [profName]
    and [sError]. *)
Lemma enumerations_without_catalog_count :
  counts_to layoutTypes_e "layoutTypes" 2
  /\ map snd (enum_values usbIdSyncTypes_e) = seqZ 0 2
  /\ ~ counts_to i2cPeriphTypes_e "i2cDevicesCount" 1
  /\ enum_value i2cPeriphTypes_e "i2cDevicesCount" = Some 1
  /\ map snd (enum_values i2cPeriphTypes_e) = [0; 1; 0xFA; 0; 1]
  /\ enum_value i2cPeriphTypes_e "i2cDevicesEnabled"
       = enum_value profSyncTypes_e "profName"
  /\ enum_value i2cPeriphTypes_e "i2cDevicesEnabled"
       = enum_value serialCmdTypes_e "sError".
Proof.
  split; [apply counts_to_intro; vm_compute; reflexivity|].
  split; [reflexivity|].
  split; [|repeat split; reflexivity].
  intros (_ & _ & Huniq).
  destruct (Huniq 0) as (c & _ & Hc); [lia|].
  assert (H1 : "i2cOLED" = c) by (apply Hc; vm_compute; tauto).
  assert (H2 : "oledAltAddr" = c) by (apply Hc; vm_compute; tauto).
  congruence.
Qed.

(** ** The packed layout value as bit fields *)

(** For a slot below 512 the sum the layout table writes is a bit
    packing: the low nine bits of the packed value are the slot, bits 9 to
    11 (mask 0xE00) are the region constant, and the sum equals the
    bitwise or of the two.  Two valid pairs with the same packed value are
    the same pair.  The bound is sharp: slot 512 of a region is slot 0 of
    the next. *)
Lemma layout_bit_fields :
  (forall r slot,
     0 <= slot < 512 ->
     Z.land (encode r slot) 0x1FF = slot
     /\ Z.land (encode r slot) 0xE00 = region_value r
     /\ encode r slot = Z.lor (region_value r) slot)
  /\ (forall r r' slot slot',
        0 <= slot < 512 -> 0 <= slot' < 512 ->
        encode r slot = encode r' slot' -> r = r' /\ slot = slot')
  /\ encode Nothing 512 = encode Left 0
  /\ encode Left 512 = encode Right 0
  /\ encode Right 1024 = encode Middle 0.
Proof.
  assert (Hfields : forall r slot,
            0 <= slot < 512 ->
            Z.land (encode r slot) 0x1FF = slot
            /\ Z.land (encode r slot) 0xE00 = region_value r
            /\ encode r slot = Z.lor (region_value r) slot).
  { intros r slot Hslot.
    assert (Hall : forallb (fun s => forallb (fun r => bit_fields_ok r s) regions)
                     (seqZ 0 512) = true)
      by (vm_compute; reflexivity).
    rewrite List.forallb_forall in Hall.
    assert (Hin : In slot (seqZ 0 512))
      by (apply list_elem_of_In, elem_of_seqZ; lia).
    specialize (Hall slot Hin). rewrite List.forallb_forall in Hall.
    assert (Hr : In r regions) by (destruct r; simpl; tauto).
    specialize (Hall r Hr). unfold bit_fields_ok in Hall.
    apply andb_true_iff in Hall as [Hall Hlor].
    apply andb_true_iff in Hall as [Hslot' Hregion].
    apply Z.eqb_eq in Hslot', Hregion, Hlor. tauto. }
  split; [exact Hfields|split; [|repeat split; reflexivity]].
  intros r r' slot slot' Hs Hs' Heq.
  destruct (Hfields r slot Hs) as (Hlow & Hhigh & _).
  destruct (Hfields r' slot' Hs') as (Hlow' & Hhigh' & _).
  rewrite Heq in Hlow, Hhigh.
  split; [|congruence].
  assert (Hrv : region_value r = region_value r') by congruence.
  destruct r, r'; try reflexivity; discriminate Hrv.
Qed.

(** The theorem at slot 20 of the right grid, the largest slot the tables
    use. *)
Lemma layout_bit_fields_witness :
  Z.land (encode Right 20) 0x1FF = 20
  /\ Z.land (encode Right 20) 0xE00 = region_value Right
  /\ encode Right 20 = Z.lor (region_value Right) 20.
Proof.
  apply (proj1 layout_bit_fields Right 20). lia.
Defined.
